(** * Visual Health E-commerce Hub: the request handlers of [main.py]
      over an explicit document store

    The handlers of [src/main.py] are embedded as functions from a store
    (the MongoDB database [db]) and a request to a new store and a
    response; the schemas of [src/schemas.py] are records.  Python floats
    are IEEE 754 binary64 values ([spec_float] with precision 53 and
    maximal exponent 1024), Python ints are [Z], strings are byte strings.

    What the handlers call but do not define is modelled after its
    documentation: the driver's [find_one], [find], [limit] and
    [update_one] with the operators [$set], [$push], [$pull], [$gte],
    [$lte] and [$regex] (module [Mongo] and class [RegexEngine]),
    [ObjectId], the constraints of the pydantic models, SHA-256 (class
    [Sha256]).  [database.py] is not among the sources; its
    [create_document] is modelled from the specification.  Requests are
    served one at a time.

    The file has three parts: the embedding, the vocabulary of the
    properties, and the properties with their proofs. *)

From Stdlib Require Import ZArith NArith List String Ascii Bool Lia.
From Stdlib Require Import Permutation.
From Stdlib Require Import SpecFloat.
Import ListNotations.
Open Scope string_scope.
Open Scope list_scope.

Set Implicit Arguments.

(** ** Responses

    A handler returns a body, raises [HTTPException(status_code, detail)],
    or lets another exception escape, which FastAPI answers with status
    500. *)

Inductive Response (A : Type) : Type :=
| Ok (body : A)
| HTTPException (status_code : Z) (detail : string)
| Uncaught (exn : string).

Arguments Ok {A} body.
Arguments HTTPException {A} status_code detail.
Arguments Uncaught {A} exn.

Definition is_error {A} (r : Response A) : bool :=
  match r with Ok _ => false | _ => true end.

Definition status_of {A} (r : Response A) : Z :=
  match r with
  | Ok _ => 200
  | HTTPException c _ => c
  | Uncaught _ => 500
  end.

(** ** Strings *)

Module Str.

Definition newline : ascii := "010"%char.

(** ASCII case folding: the letters A-Z go to a-z, every other byte is
    kept. *)
Definition lower (c : ascii) : ascii :=
  let n := nat_of_ascii c in
  if (65 <=? n)%nat && (n <=? 90)%nat then ascii_of_nat (n + 32) else c.

Definition ci_char (c d : ascii) : bool := Ascii.eqb (lower c) (lower d).

(** Case-insensitive equality of two strings. *)
Fixpoint ci_eq (a b : string) : bool :=
  match a, b with
  | EmptyString, EmptyString => true
  | String c a', String d b' => ci_char c d && ci_eq a' b'
  | _, _ => false
  end.

(** [ci_prefix p s]: [p] is a prefix of [s], up to case. *)
Fixpoint ci_prefix (p s : string) : bool :=
  match p, s with
  | EmptyString, _ => true
  | String c p', String d s' => ci_char c d && ci_prefix p' s'
  | String _ _, EmptyString => false
  end.

(** [ci_substring q s]: [q] occurs in [s] as a substring, up to case. *)
Fixpoint ci_substring (q s : string) : bool :=
  ci_prefix q s ||
  match s with
  | EmptyString => false
  | String _ s' => ci_substring q s'
  end.

(** Python truthiness of a string: non-empty. *)
Definition truthy (s : string) : bool :=
  match s with EmptyString => false | _ => true end.

End Str.

(** ** Python numbers *)

Module Py.

Definition float : Type := spec_float.
Definition prec : Z := 53.
Definition emax : Z := 1024.

Definition fadd : float -> float -> float := SFadd prec emax.
Definition fmul : float -> float -> float := SFmul prec emax.
(** [x == y], [x <= y] and [x != x] on floats. *)
Definition feqb : float -> float -> bool := SFeqb.
Definition fleb : float -> float -> bool := SFleb.
Definition is_nan (x : float) : bool :=
  match x with S754_nan => true | _ => false end.

(** The binary64 value nearest to the integer [n], ties to even. *)
Definition of_Z (n : Z) : float := binary_normalize prec emax n 0 false.

(** [float(n)] for an int [n]; [None] stands for [OverflowError] (int
    too large to convert). *)
Definition float_of_int (n : Z) : option float :=
  match of_Z n with
  | S754_infinity _ => None
  | x => Some x
  end.

Definition fzero : float := S754_zero false.

(** An int or a float, as [sum] returns: [sum([])] is the int 0. *)
Inductive number : Type :=
| Int (n : Z)
| Float (x : float).

(** [float(v)]. *)
Definition to_float (v : number) : option float :=
  match v with
  | Int n => float_of_int n
  | Float x => Some x
  end.

(** [a + b]: an int operand of a mixed sum is converted first. *)
Definition add (a b : number) : option number :=
  match a, b with
  | Int m, Int n => Some (Int (m + n))
  | Int m, Float y => option_map (fun x => Float (fadd x y)) (float_of_int m)
  | Float x, Int n => option_map (fun y => Float (fadd x y)) (float_of_int n)
  | Float x, Float y => Some (Float (fadd x y))
  end.

(** [price * quantity] for a float and an int. *)
Definition mul_float_int (x : float) (n : Z) : option float :=
  option_map (fmul x) (float_of_int n).

(** [sum(l)]: the elements are added left to right, from the int 0, each
    addition rounded (CPython up to 3.11; from 3.12 on [sum] carries a
    compensation term for floats, which changes the last bits of a sum of
    several floats and nothing for no or one element). *)
Fixpoint sum_from (acc : number) (l : list number) : option number :=
  match l with
  | [] => Some acc
  | v :: l' =>
      match add acc v with
      | Some acc' => sum_from acc' l'
      | None => None
      end
  end.

Definition sum (l : list number) : option number := sum_from (Int 0) l.

(** The list comprehension [[f(x) for x in l]] for an [f] that may raise. *)
Fixpoint comprehension {A B} (f : A -> option B) (l : list A) : option (list B) :=
  match l with
  | [] => Some []
  | x :: l' =>
      match f x with
      | Some y => option_map (cons y) (comprehension f l')
      | None => None
      end
  end.

End Py.

(** ** Object identifiers

    An [ObjectId] is a 12-byte value, here the number it denotes;
    [str(ObjectId)] is its 24 lowercase hexadecimal digits and
    [ObjectId(s)] raises [InvalidId] unless [s] has length 24 and is
    hexadecimal.  ([bytes.fromhex] also skips ASCII whitespace between
    byte pairs; a 24-character string with such gaps gives an ill-sized
    identifier that no driver call accepts, and is rejected here too.) *)

Module ObjectId.

Definition t : Type := N.

Definition hex_digit (c : ascii) : option N :=
  let n := N_of_ascii c in
  if (48 <=? n)%N && (n <=? 57)%N then Some (n - 48)%N
  else if (97 <=? n)%N && (n <=? 102)%N then Some (n - 87)%N
  else if (65 <=? n)%N && (n <=? 70)%N then Some (n - 55)%N
  else None.

Fixpoint of_hex (acc : N) (s : string) : option N :=
  match s with
  | EmptyString => Some acc
  | String c s' =>
      match hex_digit c with
      | Some d => of_hex (16 * acc + d)%N s'
      | None => None
      end
  end.

(** [ObjectId(s)]; [None] stands for [InvalidId]. *)
Definition of_str (s : string) : option t :=
  if (String.length s =? 24)%nat then of_hex 0%N s else None.

Definition digit_char (d : N) : ascii :=
  if (d <? 10)%N then ascii_of_N (48 + d) else ascii_of_N (87 + d).

Fixpoint hex_digits (n : nat) (v : N) (acc : string) : string :=
  match n with
  | O => acc
  | S n' => hex_digits n' (v / 16)%N (String (digit_char (v mod 16)%N) acc)
  end.

(** [str(oid)]. *)
Definition to_str (v : t) : string := hex_digits 24 v EmptyString.

End ObjectId.

(** ** Regular expressions of the store's query language

    A [$regex] condition with [$options: "i"] holds of a string when the
    pattern matches somewhere in it, letters compared up to case.  The
    handlers only need to know whether the store accepts a pattern and,
    if so, which strings it matches: that is the interface [RegexEngine].
    [Regex] below is an engine for a fragment of the PCRE syntax. *)

Class RegexEngine : Type :=
  regex_i : string -> option (string -> bool).

Module Regex.

Inductive atom : Type :=
| Chr (c : ascii)      (* a literal character *)
| Dot                  (* [.]: any character but a newline *)
| Bol                  (* [^]: the start of the subject *)
| Eol.                 (* [$]: the end, or before a final newline *)

Inductive quant : Type := One | Star | Plus | Opt.

Definition t : Type := list (atom * quant).

Inductive token : Type :=
| TAtom (a : atom)
| TQuant (q : quant).

(** The characters with a meaning of their own in a pattern. *)
Definition metachar (c : ascii) : bool :=
  existsb (Ascii.eqb c)
    ["\"; "^"; "$"; "."; "|"; "?"; "*"; "+"; "("; ")"; "["; "]"; "{"; "}"]%char.

(** [literal s]: no character of [s] is a metacharacter. *)
Fixpoint literal (s : string) : bool :=
  match s with
  | EmptyString => true
  | String c s' => negb (metachar c) && literal s'
  end.

(** Tokens of a pattern.  A backslash before a metacharacter makes it a
    literal; groups, alternation, classes, counted repetition and the
    other escapes are outside the fragment ([None]). *)
Fixpoint tokens (s : string) : option (list token) :=
  match s with
  | EmptyString => Some []
  | String c s' =>
      if Ascii.eqb c "\" then
        match s' with
        | String d s'' =>
            if metachar d then option_map (cons (TAtom (Chr d))) (tokens s'')
            else None
        | EmptyString => None
        end
      else if Ascii.eqb c "." then option_map (cons (TAtom Dot)) (tokens s')
      else if Ascii.eqb c "^" then option_map (cons (TAtom Bol)) (tokens s')
      else if Ascii.eqb c "$" then option_map (cons (TAtom Eol)) (tokens s')
      else if Ascii.eqb c "*" then option_map (cons (TQuant Star)) (tokens s')
      else if Ascii.eqb c "+" then option_map (cons (TQuant Plus)) (tokens s')
      else if Ascii.eqb c "?" then option_map (cons (TQuant Opt)) (tokens s')
      else if metachar c then None
      else option_map (cons (TAtom (Chr c))) (tokens s')
  end.

Definition repeatable (a : atom) : bool :=
  match a with Chr _ | Dot => true | Bol | Eol => false end.

(** Each atom takes the quantifier that follows it, if any; a quantifier
    with nothing to repeat, or after another quantifier or an anchor, is
    outside the fragment. *)
Fixpoint items (ts : list token) : option t :=
  match ts with
  | [] => Some []
  | TQuant _ :: _ => None
  | TAtom a :: ts' =>
      match ts' with
      | TQuant q :: ts'' =>
          if repeatable a then option_map (cons (a, q)) (items ts'') else None
      | _ => option_map (cons (a, One)) (items ts')
      end
  end.

Definition parse (s : string) : option t :=
  match tokens s with
  | Some ts => items ts
  | None => None
  end.

(** One character against an atom, with the [i] option. *)
Definition atom_ok (a : atom) (c : ascii) : bool :=
  match a with
  | Chr d => Str.ci_char d c
  | Dot => negb (Ascii.eqb c Str.newline)
  | Bol | Eol => false
  end.

Definition at_end (s : string) : bool :=
  match s with
  | EmptyString => true
  | String c EmptyString => Ascii.eqb c Str.newline
  | _ => false
  end.

(** [match_here re bos s]: [re] matches a prefix of [s]; [bos] tells
    whether [s] is the whole subject. *)
Fixpoint match_here (re : t) (bos : bool) (s : string) {struct re} : bool :=
  match re with
  | [] => true
  | (Bol, _) :: re' => bos && match_here re' bos s
  | (Eol, _) :: re' => at_end s && match_here re' bos s
  | (a, One) :: re' =>
      match s with
      | String c s' => atom_ok a c && match_here re' false s'
      | EmptyString => false
      end
  | (a, Opt) :: re' =>
      match_here re' bos s ||
      match s with
      | String c s' => atom_ok a c && match_here re' false s'
      | EmptyString => false
      end
  | (a, Star) :: re' =>
      (fix star (bos : bool) (s : string) {struct s} : bool :=
         match_here re' bos s ||
         match s with
         | String c s' => atom_ok a c && star false s'
         | EmptyString => false
         end) bos s
  | (a, Plus) :: re' =>
      match s with
      | String c s' =>
          atom_ok a c &&
          (fix star (bos : bool) (s : string) {struct s} : bool :=
             match_here re' bos s ||
             match s with
             | String c s' => atom_ok a c && star false s'
             | EmptyString => false
             end) false s'
      | EmptyString => false
      end
  end.

(** [re] matches at some later position of the subject. *)
Fixpoint search_later (re : t) (s : string) : bool :=
  match s with
  | EmptyString => false
  | String _ s' => match_here re false s' || search_later re s'
  end.

Definition search (re : t) (s : string) : bool :=
  match_here re true s || search_later re s.

Definition engine : RegexEngine :=
  fun pattern => option_map search (parse pattern).

End Regex.

(** ** Schemas ([schemas.py])

    One record per pydantic model.  The [created_at] and [updated_at] keys
    of a stored dictionary are kept in [Document] below, for every
    collection alike.  [valid] is the constraint pydantic checks when a
    model is built. *)

Definition datetime : Type := Z.

Module Address.
Record t : Type := {
  label : string;
  full_name : string;
  phone : string;
  wilaya : string;
  commune : option string;
  street : string;
  notes : option string
}.
End Address.

Module User.
Record t : Type := {
  name : string;
  email : string;
  password_hash : string;
  phone : option string;
  addresses : list Address.t
}.
End User.

Module Product.
Record t : Type := {
  title : string;
  description : option string;
  price : Py.float;
  brand : option string;
  color : option string;
  frame_shape : option string;
  type_ : option string;
  category : string;
  images : list string;
  in_stock : bool;
  sku : option string
}.

Definition ProductCategory : list string :=
  ["lentilles"; "solutions"; "lunettes_medicales"; "lunettes_soleil"].

(** [price: float = Field(..., ge=0)] and [category: ProductCategory]. *)
Definition valid (p : t) : bool :=
  Py.fleb Py.fzero (price p) && existsb (String.eqb (category p)) ProductCategory.
End Product.

Module OrderItem.
Record t : Type := {
  product_id : string;
  title : string;
  price : Py.float;
  quantity : Z;
  image : option string
}.

(** [quantity: int = Field(..., ge=1)]. *)
Definition valid (it : t) : bool := (1 <=? quantity it)%Z.
End OrderItem.

Module Order.
Record t : Type := {
  user_id : string;
  items : list OrderItem.t;
  address : Address.t;
  wilaya : string;
  subtotal : Py.float;
  delivery_fee : Py.float;
  total : Py.float;
  status : string
}.

Definition OrderStatus : list string :=
  ["en_preparation"; "expediee"; "en_cours_de_livraison"; "livree"].

Definition with_status (s : string) (o : t) : t :=
  {| user_id := user_id o; items := items o; address := address o;
     wilaya := wilaya o; subtotal := subtotal o;
     delivery_fee := delivery_fee o; total := total o; status := s |}.
End Order.

Module DeliveryFee.
Record t : Type := {
  wilaya : string;
  fee : Py.float
}.

(** [fee: float = Field(..., ge=0)]. *)
Definition valid (d : t) : bool := Py.fleb Py.fzero (fee d).
End DeliveryFee.

Module Doctor.
Record t : Type := {
  name : string;
  address : string;
  phone : option string;
  hours : option string;
  specialties : list string
}.
End Doctor.

(** ** The document store *)

Record Document (T : Type) : Type := {
  _id : ObjectId.t;
  doc : T;
  created_at : option datetime;
  updated_at : option datetime
}.

Arguments _id {T} d.
Arguments doc {T} d.
Arguments created_at {T} d.
Arguments updated_at {T} d.

Definition Collection (T : Type) : Type := list (Document T).

(** The collections of [db] that the handlers below use, in insertion
    order, and the next identifier the store hands out. *)
Record Store : Type := {
  user : Collection User.t;
  product : Collection Product.t;
  deliveryfee : Collection DeliveryFee.t;
  order : Collection Order.t;
  doctor : Collection Doctor.t;
  next_id : ObjectId.t
}.

Definition empty_store : Store :=
  {| user := []; product := []; deliveryfee := []; order := [];
     doctor := []; next_id := 0%N |}.

Module Mongo.

Record UpdateResult : Type := {
  matched_count : nat;
  modified_count : nat
}.

(** [find_one(filter)]: the first document the filter holds of. *)
Definition find_one {T} (filt : Document T -> bool) (c : Collection T)
  : option (Document T) := find filt c.

(** [find(filter)]. *)
Definition find_all {T} (filt : Document T -> bool) (c : Collection T)
  : Collection T := filter filt c.

(** [cursor.limit(n)]: 0 is no limit, a negative [n] asks for [|n|]
    documents; a count beyond 64 bits cannot be encoded. *)
Definition limit {T} (n : Z) (c : list T) : option (list T) :=
  if (2 ^ 63 <=? Z.abs n)%Z then None
  else if (n =? 0)%Z then Some c
  else Some (firstn (Z.abs_nat n) c).

(** [update_one(filter, update)]: the first matching document is
    replaced by what [update] makes of it; [update] also tells whether
    the document changed. *)
Fixpoint update_one {T} (filt : Document T -> bool)
    (update : Document T -> Document T * bool) (c : Collection T)
  : Collection T * UpdateResult :=
  match c with
  | [] => ([], {| matched_count := 0; modified_count := 0 |})
  | d :: c' =>
      if filt d then
        let (d', changed) := update d in
        (d' :: c', {| matched_count := 1;
                      modified_count := if changed then 1 else 0 |})
      else
        let (c'', res) := update_one filt update c' in
        (d :: c'', res)
  end.

(** The filter [{"_id": oid}]. *)
Definition by_id {T} (oid : ObjectId.t) (d : Document T) : bool :=
  N.eqb (_id d) oid.

(** Equality of a field that may be null with a string. *)
Definition field_is (v : option string) (s : string) : bool :=
  match v with
  | Some x => String.eqb x s
  | None => false
  end.

(** [$gte] and [$lte] between a stored number and a bound: NaN compares
    equal to NaN and to nothing else. *)
Definition gte (x bound : Py.float) : bool :=
  if Py.is_nan x || Py.is_nan bound then Py.is_nan x && Py.is_nan bound
  else Py.fleb bound x.

Definition lte (x bound : Py.float) : bool :=
  if Py.is_nan x || Py.is_nan bound then Py.is_nan x && Py.is_nan bound
  else Py.fleb x bound.

End Mongo.

Definition set_user (c : Collection User.t) (db : Store) : Store :=
  {| user := c; product := product db; deliveryfee := deliveryfee db;
     order := order db; doctor := doctor db; next_id := next_id db |}.

Definition set_order (c : Collection Order.t) (db : Store) : Store :=
  {| user := user db; product := product db; deliveryfee := deliveryfee db;
     order := c; doctor := doctor db; next_id := next_id db |}.

(** Modelled from the spec: [create_document] of [database.py], which is
    not among the sources.  The store adapter's insert-one "returns
    generated identifier", identifiers are "assigned by the store on
    creation", and a created entity carries created_at/updated_at
    timestamps: the document gets the next identifier and the current
    time, and goes to the end of its collection. *)
Definition create_document {T} (now : datetime) (oid : ObjectId.t) (data : T)
  : Document T :=
  {| _id := oid; doc := data; created_at := Some now; updated_at := Some now |}.

(** [create_document(collection, data)] for each collection; the answer
    is [str] of the new identifier. *)
Definition create_user (now : datetime) (data : User.t) (db : Store)
  : Store * string :=
  ({| user := user db ++ [create_document now (next_id db) data];
      product := product db; deliveryfee := deliveryfee db;
      order := order db; doctor := doctor db;
      next_id := N.succ (next_id db) |},
   ObjectId.to_str (next_id db)).

Definition create_product_document (now : datetime) (data : Product.t) (db : Store)
  : Store * string :=
  ({| user := user db;
      product := product db ++ [create_document now (next_id db) data];
      deliveryfee := deliveryfee db; order := order db; doctor := doctor db;
      next_id := N.succ (next_id db) |},
   ObjectId.to_str (next_id db)).

Definition create_deliveryfee (now : datetime) (data : DeliveryFee.t) (db : Store)
  : Store * string :=
  ({| user := user db; product := product db;
      deliveryfee := deliveryfee db ++ [create_document now (next_id db) data];
      order := order db; doctor := doctor db;
      next_id := N.succ (next_id db) |},
   ObjectId.to_str (next_id db)).

Definition create_order (now : datetime) (data : Order.t) (db : Store)
  : Store * string :=
  ({| user := user db; product := product db; deliveryfee := deliveryfee db;
      order := order db ++ [create_document now (next_id db) data];
      doctor := doctor db;
      next_id := N.succ (next_id db) |},
   ObjectId.to_str (next_id db)).

Definition create_doctor_document (now : datetime) (data : Doctor.t) (db : Store)
  : Store * string :=
  ({| user := user db; product := product db; deliveryfee := deliveryfee db;
      order := order db;
      doctor := doctor db ++ [create_document now (next_id db) data];
      next_id := N.succ (next_id db) |},
   ObjectId.to_str (next_id db)).

(** ** Handlers: a state and exception monad over the store *)

Definition Handler (A : Type) : Type := Store -> Store * Response A.

Definition ret {A} (a : A) : Handler A := fun db => (db, Ok a).

Definition bind {A B} (m : Handler A) (k : A -> Handler B) : Handler B :=
  fun db =>
    match m db with
    | (db', Ok a) => k a db'
    | (db', HTTPException c d) => (db', HTTPException c d)
    | (db', Uncaught e) => (db', Uncaught e)
    end.

(** [raise HTTPException(status_code, detail)]. *)
Definition raise {A} (status_code : Z) (detail : string) : Handler A :=
  fun db => (db, HTTPException status_code detail).

(** A library call that returns or raises [exn]. *)
Definition try_call {A} (exn : string) (o : option A) : Handler A :=
  fun db => (db, match o with Some a => Ok a | None => Uncaught exn end).

Definition query {A} (f : Store -> A) : Handler A := fun db => (db, Ok (f db)).

Definition modify {A} (f : Store -> Store * A) : Handler A :=
  fun db => let (db', a) := f db in (db', Ok a).

Notation "x <- m ;; k" := (bind m (fun x => k))
  (at level 61, m at next level, right associativity).
Notation "' p <- m ;; k" := (bind m (fun x => let p := x in k))
  (at level 61, p pattern, m at next level, right associativity).

(** [hashlib.sha256(...).hexdigest()]. *)
Class Sha256 : Type :=
  sha256_hexdigest : string -> string.

Definition hash_password `{Sha256} (pw : string) : string :=
  sha256_hexdigest pw.

(** *** Auth and user profile *)

Module RegisterRequest.
Record t : Type := { name : string; email : string; password : string }.
End RegisterRequest.

Module AuthResponse.
Record t : Type := { user_id : string; token : string }.
End AuthResponse.

Definition register `{Sha256} (now : datetime) (payload : RegisterRequest.t)
  : Handler AuthResponse.t :=
  existing <- query (fun db =>
    Mongo.find_one
      (fun d => String.eqb (User.email (doc d)) (RegisterRequest.email payload))
      (user db)) ;;
  match existing with
  | Some _ => raise 400 "Cet email est déjà utilisé"
  | None =>
      let user :=
        {| User.name := RegisterRequest.name payload;
           User.email := RegisterRequest.email payload;
           User.password_hash := hash_password (RegisterRequest.password payload);
           User.phone := None;
           User.addresses := [] |} in
      user_id <- modify (create_user now user) ;;
      let token :=
        hash_password (RegisterRequest.email payload
                       ++ RegisterRequest.password payload)%string in
      ret {| AuthResponse.user_id := user_id; AuthResponse.token := token |}
  end.

Module UpdateProfile.
Record t : Type := { name : option string; phone : option string }.
End UpdateProfile.

Definition option_eqb {A} (eqb : A -> A -> bool) (a b : option A) : bool :=
  match a, b with
  | Some x, Some y => eqb x y
  | None, None => true
  | _, _ => false
  end.

(** [{"$set": updates}] for the present keys of the profile and
    [updated_at]. *)
Definition set_profile (now : datetime) (payload : UpdateProfile.t)
    (d : Document User.t) : Document User.t * bool :=
  let u := doc d in
  let name' :=
    match UpdateProfile.name payload with Some n => n | None => User.name u end in
  let phone' :=
    match UpdateProfile.phone payload with
    | Some p => Some p
    | None => User.phone u
    end in
  ({| _id := _id d;
      doc := {| User.name := name'; User.email := User.email u;
                User.password_hash := User.password_hash u;
                User.phone := phone'; User.addresses := User.addresses u |};
      created_at := created_at d;
      updated_at := Some now |},
   negb (String.eqb name' (User.name u)
         && option_eqb String.eqb phone' (User.phone u)
         && option_eqb Z.eqb (updated_at d) (Some now))).

Definition update_users (filt : Document User.t -> bool)
    (update : Document User.t -> Document User.t * bool)
  : Handler Mongo.UpdateResult :=
  modify (fun db =>
    let (c, res) := Mongo.update_one filt update (user db) in
    (set_user c db, res)).

Definition update_user (now : datetime) (user_id : string)
    (payload : UpdateProfile.t) : Handler bool :=
  match UpdateProfile.name payload, UpdateProfile.phone payload with
  | None, None => ret false
  | _, _ =>
      oid <- try_call "InvalidId" (ObjectId.of_str user_id) ;;
      res <- update_users (Mongo.by_id oid) (set_profile now payload) ;;
      ret (Nat.eqb (Mongo.modified_count res) 1)
  end.

(** [{"$push": {"addresses": addr}}]. *)
Definition push_address (addr : Address.t) (d : Document User.t)
  : Document User.t * bool :=
  let u := doc d in
  ({| _id := _id d;
      doc := {| User.name := User.name u; User.email := User.email u;
                User.password_hash := User.password_hash u;
                User.phone := User.phone u;
                User.addresses := User.addresses u ++ [addr] |};
      created_at := created_at d;
      updated_at := updated_at d |},
   true).

(** [{"$pull": {"addresses": {"label": label}}}]: every address with that
    label goes; the document changed when there was one. *)
Definition pull_address (label : string) (d : Document User.t)
  : Document User.t * bool :=
  let u := doc d in
  let has_label := fun a => String.eqb (Address.label a) label in
  ({| _id := _id d;
      doc := {| User.name := User.name u; User.email := User.email u;
                User.password_hash := User.password_hash u;
                User.phone := User.phone u;
                User.addresses :=
                  filter (fun a => negb (has_label a)) (User.addresses u) |};
      created_at := created_at d;
      updated_at := updated_at d |},
   existsb has_label (User.addresses u)).

Definition add_address (user_id : string) (addr : Address.t) : Handler bool :=
  oid <- try_call "InvalidId" (ObjectId.of_str user_id) ;;
  res <- update_users (Mongo.by_id oid) (push_address addr) ;;
  if Nat.eqb (Mongo.matched_count res) 0
  then raise 404 "Utilisateur introuvable"
  else ret true.

Definition delete_address (user_id : string) (label : string) : Handler bool :=
  oid <- try_call "InvalidId" (ObjectId.of_str user_id) ;;
  res <- update_users (Mongo.by_id oid) (pull_address label) ;;
  ret (Nat.ltb 0 (Mongo.modified_count res)).

(** *** Catalogue and search *)

Module ProductQuery.
(** The query parameters of [list_products]; [limit] defaults to 50. *)
Record t : Type := {
  q : option string;
  category : option string;
  brand : option string;
  color : option string;
  frame_shape : option string;
  type_ : option string;
  price_min : option Py.float;
  price_max : option Py.float;
  limit : Z
}.
End ProductQuery.

(** [if v: filt[key] = v]: a missing or empty parameter adds no key. *)
Definition eq_condition (param : option string) (field : option string) : bool :=
  match param with
  | Some v => if Str.truthy v then Mongo.field_is field v else true
  | None => true
  end.

(** The [price] key of the filter. *)
Definition price_condition (price_min price_max : option Py.float)
    (x : Py.float) : bool :=
  match price_min, price_max with
  | None, None => true
  | _, _ =>
      match price_min with Some m => Mongo.gte x m | None => true end
      && match price_max with Some m => Mongo.lte x m | None => true end
  end.

(** The [$or] key of the filter, for a compiled pattern. *)
Definition or_condition (m : string -> bool) (p : Product.t) : bool :=
  m (Product.title p)
  || match Product.description p with Some s => m s | None => false end
  || match Product.brand p with Some s => m s | None => false end.

(** The conditions of [filt] other than [$or]. *)
Definition filt_fields (params : ProductQuery.t) (p : Product.t) : bool :=
  eq_condition (ProductQuery.category params) (Some (Product.category p))
  && eq_condition (ProductQuery.brand params) (Product.brand p)
  && eq_condition (ProductQuery.color params) (Product.color p)
  && eq_condition (ProductQuery.frame_shape params) (Product.frame_shape p)
  && eq_condition (ProductQuery.type_ params) (Product.type_ p)
  && price_condition (ProductQuery.price_min params)
       (ProductQuery.price_max params) (Product.price p).

(** The cursor is read when the loop starts: the store then refuses a bad
    pattern and the driver a limit it cannot encode; either way the
    exception escapes and the answer is 500. *)
Definition list_products `{RegexEngine} (params : ProductQuery.t)
  : Handler (list (Document Product.t)) :=
  text <-
    match ProductQuery.q params with
    | Some q =>
        if Str.truthy q then
          m <- try_call "OperationFailure" (regex_i q) ;;
          ret (or_condition m)
        else ret (fun _ => true)
    | None => ret (fun _ => true)
    end ;;
  let filt := fun d => filt_fields params (doc d) && text (doc d) in
  found <- query (fun db => Mongo.find_all filt (product db)) ;;
  try_call "OverflowError" (Mongo.limit (ProductQuery.limit params) found).

Definition create_product (now : datetime) (p : Product.t) : Handler string :=
  modify (create_product_document now p).

Definition create_doctor (now : datetime) (d : Doctor.t) : Handler string :=
  modify (create_doctor_document now d).

(** *** Delivery fees *)

Definition get_delivery_fee `{RegexEngine} (wilaya : string)
  : Handler (string * Py.float) :=
  m <- try_call "OperationFailure" (regex_i ("^" ++ wilaya ++ "$")%string) ;;
  fee <- query (fun db =>
    Mongo.find_one (fun d => m (DeliveryFee.wilaya (doc d))) (deliveryfee db)) ;;
  match fee with
  | None => raise 404 "Tarif non défini pour cette wilaya"
  | Some fee => ret (DeliveryFee.wilaya (doc fee), DeliveryFee.fee (doc fee))
  end.

(** *** Checkout and orders *)

Module CheckoutRequest.
Record t : Type := {
  user_id : string;
  items : list OrderItem.t;
  address : Address.t;
  wilaya : string
}.

(** What pydantic checks of the body: each item is a valid [OrderItem]. *)
Definition valid (r : t) : bool := forallb OrderItem.valid (items r).
End CheckoutRequest.

Module CheckoutResponse.
Record t : Type := {
  order_id : string;
  total : Py.float;
  delivery_fee : Py.float
}.
End CheckoutResponse.

(** [it.price * it.quantity]. *)
Definition line_total (it : OrderItem.t) : option Py.number :=
  option_map Py.Float
    (Py.mul_float_int (OrderItem.price it) (OrderItem.quantity it)).

Definition checkout `{RegexEngine} (now : datetime) (payload : CheckoutRequest.t)
  : Handler CheckoutResponse.t :=
  lines <- try_call "OverflowError"
             (Py.comprehension line_total (CheckoutRequest.items payload)) ;;
  subtotal <- try_call "OverflowError" (Py.sum lines) ;;
  m <- try_call "OperationFailure"
         (regex_i ("^" ++ CheckoutRequest.wilaya payload ++ "$")%string) ;;
  fee_doc <- query (fun db =>
    Mongo.find_one (fun d => m (DeliveryFee.wilaya (doc d))) (deliveryfee db)) ;;
  match fee_doc with
  | None =>
      raise 400 "Impossible de calculer les frais de livraison pour cette wilaya"
  | Some fee_doc =>
      let delivery_fee := DeliveryFee.fee (doc fee_doc) in
      sum <- try_call "OverflowError" (Py.add subtotal (Py.Float delivery_fee)) ;;
      total <- try_call "OverflowError" (Py.to_float sum) ;;
      subtotal_f <- try_call "OverflowError" (Py.to_float subtotal) ;;
      let order :=
        {| Order.user_id := CheckoutRequest.user_id payload;
           Order.items := CheckoutRequest.items payload;
           Order.address := CheckoutRequest.address payload;
           Order.wilaya := CheckoutRequest.wilaya payload;
           Order.subtotal := subtotal_f;
           Order.delivery_fee := delivery_fee;
           Order.total := total;
           Order.status := "en_preparation" |} in
      new_id <- modify (create_order now order) ;;
      ret {| CheckoutResponse.order_id := new_id;
             CheckoutResponse.total := total;
             CheckoutResponse.delivery_fee := delivery_fee |}
  end.

Module UpdateOrderStatus.
Record t : Type := { status : string }.
End UpdateOrderStatus.

(** [{"$set": {"status": status, "updated_at": now}}]. *)
Definition set_status (now : datetime) (status : string) (d : Document Order.t)
  : Document Order.t * bool :=
  ({| _id := _id d;
      doc := Order.with_status status (doc d);
      created_at := created_at d;
      updated_at := Some now |},
   negb (String.eqb status (Order.status (doc d))
         && option_eqb Z.eqb (updated_at d) (Some now))).

Definition allowed : list string :=
  ["en_preparation"; "expediee"; "en_cours_de_livraison"; "livree"].

Definition update_order_status (now : datetime) (order_id : string)
    (payload : UpdateOrderStatus.t) : Handler bool :=
  if negb (existsb (String.eqb (UpdateOrderStatus.status payload)) allowed)
  then raise 400 "Statut invalide"
  else
    oid <- try_call "InvalidId" (ObjectId.of_str order_id) ;;
    res <- modify (fun db =>
      let (c, res) :=
        Mongo.update_one (Mongo.by_id oid)
          (set_status now (UpdateOrderStatus.status payload)) (order db) in
      (set_order c db, res)) ;;
    if Nat.eqb (Mongo.matched_count res) 0
    then raise 404 "Commande introuvable"
    else ret true.

Definition get_order (order_id : string) : Handler (Document Order.t) :=
  oid <- try_call "InvalidId" (ObjectId.of_str order_id) ;;
  found <- query (fun db => Mongo.find_one (Mongo.by_id oid) (order db)) ;;
  match found with
  | None => raise 404 "Commande introuvable"
  | Some d => ret d
  end.

(** *** Admin seed *)

Module SeedResponse.
Record t : Type := { products : Z; delivery_fees : Z; doctors : Z }.
End SeedResponse.

Definition fees : list (string * Z) :=
  [("Alger", 400); ("Oran", 500); ("Blida", 450); ("Constantine", 600);
   ("Tizi Ouzou", 550); ("Annaba", 600); ("Sétif", 550); ("Béjaïa", 600);
   ("Tlemcen", 600); ("Mostaganem", 600)]%Z.

Definition sample_product (title description : string) (price : Z)
    (brand category image : string) (color frame_shape : option string)
  : Product.t :=
  {| Product.title := title; Product.description := Some description;
     Product.price := Py.of_Z price; Product.brand := Some brand;
     Product.color := color; Product.frame_shape := frame_shape;
     Product.type_ := None; Product.category := category;
     Product.images := [image]; Product.in_stock := true;
     Product.sku := None |}.

Definition sample_products : list Product.t :=
  [sample_product "Lentilles journalières FreshLook" "Confort quotidien." 2500
     "FreshLook" "lentilles" "/images/lentilles1.jpg" (Some "vert") None;
   sample_product "Solution d'entretien MultiPlus 360ml" "Nettoyage et confort."
     1200 "Bausch & Lomb" "solutions" "/images/solution1.jpg" None None;
   sample_product "Lunettes médicales Classic Noir" "Monture légère." 8000
     "OptiCare" "lunettes_medicales" "/images/med1.jpg" None (Some "rect");
   sample_product "Lunettes de soleil Aviator" "Protection UV400." 9000
     "RayBest" "lunettes_soleil" "/images/sun1.jpg" None (Some "pilot")].

Definition sample_doctors : list Doctor.t :=
  [{| Doctor.name := "Dr. Amine B."; Doctor.address := "Alger Centre";
      Doctor.phone := Some "0550 00 00 01"; Doctor.hours := Some "9:00-17:00";
      Doctor.specialties := ["Ophtalmologie"] |};
   {| Doctor.name := "Dr. Sara K."; Doctor.address := "Oran";
      Doctor.phone := Some "0550 00 00 02"; Doctor.hours := Some "10:00-18:00";
      Doctor.specialties := ["Ophtalmologie"; "Pédiatrie"] |}].

(** [for x in l: if not exists(x): create(x); inserted += 1]. *)
Fixpoint seed_each {A} (existing : A -> Store -> bool)
    (create : A -> Store -> Store * string) (l : list A) (inserted : Z)
  : Handler Z :=
  match l with
  | [] => ret inserted
  | x :: l' =>
      found <- query (existing x) ;;
      if found then seed_each existing create l' inserted
      else
        _ <- modify (create x) ;;
        seed_each existing create l' (inserted + 1)%Z
  end.

Definition is_some {A} (o : option A) : bool :=
  match o with Some _ => true | None => false end.

(** Every clock reading of one call is the same [now]. *)
Definition admin_seed (now : datetime) : Handler SeedResponse.t :=
  inserted_fees <-
    seed_each
      (fun '(name, _) db =>
         is_some (Mongo.find_one
                    (fun d => String.eqb (DeliveryFee.wilaya (doc d)) name)
                    (deliveryfee db)))
      (fun '(name, fee) =>
         create_deliveryfee now
           {| DeliveryFee.wilaya := name; DeliveryFee.fee := Py.of_Z fee |})
      fees 0%Z ;;
  inserted_products <-
    seed_each
      (fun p db =>
         is_some (Mongo.find_one
                    (fun d => String.eqb (Product.title (doc d)) (Product.title p))
                    (product db)))
      (create_product_document now) sample_products 0%Z ;;
  inserted_doctors <-
    seed_each
      (fun x db =>
         is_some (Mongo.find_one
                    (fun d => String.eqb (Doctor.name (doc d)) (Doctor.name x))
                    (doctor db)))
      (create_doctor_document now) sample_doctors 0%Z ;;
  ret {| SeedResponse.products := inserted_products;
         SeedResponse.delivery_fees := inserted_fees;
         SeedResponse.doctors := inserted_doctors |}.

(** ** Request sequences

    The requests that change the collections above, each with the time at
    which it is served; [run] serves a sequence of them, one after the
    other, whatever each one answers. *)

Inductive Request : Type :=
| AdminSeed
| Register (payload : RegisterRequest.t)
| UpdateUser (user_id : string) (payload : UpdateProfile.t)
| AddAddress (user_id : string) (addr : Address.t)
| DeleteAddress (user_id : string) (label : string)
| CreateProduct (p : Product.t)
| CreateDoctor (d : Doctor.t)
| Checkout (payload : CheckoutRequest.t)
| PatchOrderStatus (order_id : string) (payload : UpdateOrderStatus.t).

Definition after {A} (h : Handler A) (db : Store) : Store := fst (h db).

Definition response {A} (h : Handler A) (db : Store) : Response A := snd (h db).

(** FastAPI builds the body model before it calls the handler, and answers
    422 when the body does not pass the model's constraints. *)
Definition validated {A} (ok : bool) (h : Handler A) : Handler A :=
  if ok then h else raise 422 "Unprocessable Entity".

Definition serve `{RegexEngine} `{Sha256} (now : datetime) (r : Request)
    (db : Store) : Store :=
  match r with
  | AdminSeed => after (admin_seed now) db
  | Register payload => after (register now payload) db
  | UpdateUser user_id payload => after (update_user now user_id payload) db
  | AddAddress user_id addr => after (add_address user_id addr) db
  | DeleteAddress user_id label => after (delete_address user_id label) db
  | CreateProduct p =>
      after (validated (Product.valid p) (create_product now p)) db
  | CreateDoctor d => after (create_doctor now d) db
  | Checkout payload =>
      after (validated (CheckoutRequest.valid payload) (checkout now payload)) db
  | PatchOrderStatus order_id payload =>
      after (update_order_status now order_id payload) db
  end.

Fixpoint run `{RegexEngine} `{Sha256} (rs : list (datetime * Request))
    (db : Store) : Store :=
  match rs with
  | [] => db
  | (now, r) :: rs' => run rs' (serve now r db)
  end.

(** ** The helpers [ObjId.validate] and [oid]

    Both take any object; the two kinds they tell apart are modelled: an
    [ObjectId] and a string. *)

Inductive py_id : Type :=
| IdObj (v : ObjectId.t)
| IdStr (s : string).

(** [ObjId.validate(v)]; [None] stands for [ValueError("Invalid
    ObjectId")]. *)
Definition ObjId_validate (v : py_id) : option string :=
  match v with
  | IdObj o => Some (ObjectId.to_str o)
  | IdStr s => option_map ObjectId.to_str (ObjectId.of_str s)
  end.

(** [oid(obj)]: as [ObjId.validate], but an invalid string is returned as
    it is. *)
Definition oid (obj : py_id) : string :=
  match obj with
  | IdObj o => ObjectId.to_str o
  | IdStr s =>
      match ObjectId.of_str s with
      | Some v => ObjectId.to_str v
      | None => s
      end
  end.

(** ** The handlers that only read *)

Module LoginRequest.
Record t : Type := { email : string; password : string }.
End LoginRequest.

Definition login `{Sha256} (payload : LoginRequest.t) : Handler AuthResponse.t :=
  user <- query (fun db =>
    Mongo.find_one
      (fun d => String.eqb (User.email (doc d)) (LoginRequest.email payload))
      (user db)) ;;
  match user with
  | None => raise 401 "Identifiants invalides"
  | Some user =>
      if negb (String.eqb (User.password_hash (doc user))
                 (hash_password (LoginRequest.password payload)))
      then raise 401 "Identifiants invalides"
      else
        let token :=
          hash_password (LoginRequest.email payload
                         ++ LoginRequest.password payload)%string in
        ret {| AuthResponse.user_id := ObjectId.to_str (_id user);
               AuthResponse.token := token |}
  end.

Definition forgot_password (email : string) : Handler string :=
  found <- query (fun db =>
    Mongo.find_one (fun d => String.eqb (User.email (doc d)) email) (user db)) ;;
  match found with
  | None => raise 404 "Utilisateur introuvable"
  | Some _ => ret "Lien de réinitialisation envoyé (simulation)"
  end.

Module UserView.
(** A user document under the projection [{"password_hash": 0}], its
    [_id] as a string. *)
Record t : Type := {
  _id : string;
  name : string;
  email : string;
  phone : option string;
  addresses : list Address.t;
  created_at : option datetime;
  updated_at : option datetime
}.
End UserView.

Definition get_user (user_id : string) : Handler UserView.t :=
  oid <- try_call "InvalidId" (ObjectId.of_str user_id) ;;
  found <- query (fun db => Mongo.find_one (Mongo.by_id oid) (user db)) ;;
  match found with
  | None => raise 404 "Utilisateur introuvable"
  | Some d =>
      ret {| UserView._id := ObjectId.to_str (_id d);
             UserView.name := User.name (doc d);
             UserView.email := User.email (doc d);
             UserView.phone := User.phone (doc d);
             UserView.addresses := User.addresses (doc d);
             UserView.created_at := created_at d;
             UserView.updated_at := updated_at d |}
  end.

Definition list_addresses (user_id : string) : Handler (list Address.t) :=
  oid <- try_call "InvalidId" (ObjectId.of_str user_id) ;;
  found <- query (fun db => Mongo.find_one (Mongo.by_id oid) (user db)) ;;
  match found with
  | None => raise 404 "Utilisateur introuvable"
  | Some d => ret (User.addresses (doc d))
  end.

Definition get_product (product_id : string) : Handler (Document Product.t) :=
  oid <- try_call "InvalidId" (ObjectId.of_str product_id) ;;
  found <- query (fun db => Mongo.find_one (Mongo.by_id oid) (product db)) ;;
  match found with
  | None => raise 404 "Produit introuvable"
  | Some d => ret d
  end.

Definition get_doctor (doctor_id : string) : Handler (Document Doctor.t) :=
  oid <- try_call "InvalidId" (ObjectId.of_str doctor_id) ;;
  found <- query (fun db => Mongo.find_one (Mongo.by_id oid) (doctor db)) ;;
  match found with
  | None => raise 404 "Médecin introuvable"
  | Some d => ret d
  end.



(** [cursor.sort("created_at", -1)]: latest first, documents without a
    date last.  How the store orders documents of the same date is its
    own choice; here they keep their order. *)
Definition later_or_same (a b : option datetime) : bool :=
  match a, b with
  | _, None => true
  | None, Some _ => false
  | Some x, Some y => (y <=? x)%Z
  end.

Fixpoint insert_by_date {T} (d : Document T) (c : list (Document T))
  : list (Document T) :=
  match c with
  | [] => [d]
  | x :: c' =>
      if later_or_same (created_at d) (created_at x) then d :: c
      else x :: insert_by_date d c'
  end.

Fixpoint sort_latest_first {T} (c : list (Document T)) : list (Document T) :=
  match c with
  | [] => []
  | d :: c' => insert_by_date d (sort_latest_first c')
  end.

Definition list_orders (user_id : string) : Handler (list (Document Order.t)) :=
  query (fun db =>
    sort_latest_first
      (Mongo.find_all (fun d => String.eqb (Order.user_id (doc d)) user_id)
         (order db))).

(** * Vocabulary of the properties

    The predicates in which the properties below are stated, the relations
    between the store before and after a handler, and the stores and
    requests on which the handlers are run as examples. *)

Local Open Scope Z_scope.

(** ** Order status and order amounts *)

Definition status_allowed (s : string) : bool := existsb (String.eqb s) allowed.



(** [float(sum([it.price * it.quantity for it in items]))], when nothing
    overflows. *)
Definition subtotal_of (items : list OrderItem.t) : option Py.float :=
  match Py.comprehension line_total items with
  | Some lines =>
      match Py.sum lines with
      | Some s => Py.to_float s
      | None => None
      end
  | None => None
  end.

(** The fee of the entry that the store resolves [wilaya] to. *)
Definition fee_of `{RegexEngine} (wilaya : string) (db : Store) : option Py.float :=
  match regex_i ("^" ++ wilaya ++ "$")%string with
  | Some m =>
      option_map (fun d => DeliveryFee.fee (doc d))
        (Mongo.find_one (fun d => m (DeliveryFee.wilaya (doc d))) (deliveryfee db))
  | None => None
  end.

(** A stored order is consistent in [db]: its subtotal is the one computed
    from its own items, its delivery fee is the stored fee its wilaya
    resolves to, and its total is the binary64 sum of the two. *)
Record order_ok `{RegexEngine} (db : Store) (o : Order.t) : Prop := {
  subtotal_ok : subtotal_of (Order.items o) = Some (Order.subtotal o);
  delivery_fee_ok : fee_of (Order.wilaya o) db = Some (Order.delivery_fee o);
  total_ok : Order.total o = Py.fadd (Order.subtotal o) (Order.delivery_fee o)
}.



(** ** Users and their addresses *)

Definition emails (db : Store) : list string :=
  map (fun d => User.email (doc d)) (user db).

Definition has_label (label : string) (a : Address.t) : bool :=
  String.eqb (Address.label a) label.

(** The user [oid] has an address with this label. *)
Definition has_address (oid : ObjectId.t) (label : string) (db : Store) : bool :=
  match Mongo.find_one (Mongo.by_id oid) (user db) with
  | Some d => existsb (has_label label) (User.addresses (doc d))
  | None => false
  end.

(** ** The catalogue *)

(** The [$or] condition of [list_products], or nothing when the store
    refuses the pattern. *)
Definition text_condition `{RegexEngine} (q : option string)
  : option (Product.t -> bool) :=
  match q with
  | Some q =>
      if Str.truthy q then option_map or_condition (regex_i q)
      else Some (fun _ => true)
  | None => Some (fun _ => true)
  end.

(** [lo <= p <= hi], each inequality when its bound is given. *)
Definition in_range (lo hi : option Py.float) (p : Py.float) : bool :=
  match lo with Some l => Py.fleb l p | None => true end
  && match hi with Some h => Py.fleb p h | None => true end.

(** The query without its price bounds and without a cap. *)
Definition unbounded (params : ProductQuery.t) : ProductQuery.t :=
  {| ProductQuery.q := ProductQuery.q params;
     ProductQuery.category := ProductQuery.category params;
     ProductQuery.brand := ProductQuery.brand params;
     ProductQuery.color := ProductQuery.color params;
     ProductQuery.frame_shape := ProductQuery.frame_shape params;
     ProductQuery.type_ := ProductQuery.type_ params;
     ProductQuery.price_min := None;
     ProductQuery.price_max := None;
     ProductQuery.limit := 0 |}.

(** [q] occurs, up to case, in the title, the description or the brand. *)
Definition mentions (q : string) (p : Product.t) : bool :=
  Str.ci_substring q (Product.title p)
  || match Product.description p with
     | Some s => Str.ci_substring q s
     | None => false
     end
  || match Product.brand p with
     | Some s => Str.ci_substring q s
     | None => false
     end.



Definition catalogue_valid (db : Store) : Prop :=
  Forall (fun d => Product.valid (doc d) = true) (product db)
  /\ Forall (fun d => DeliveryFee.valid (doc d) = true) (deliveryfee db).

(** ** Delivery fees and literal patterns *)

(** Some stored fee has a wilaya equal to [w] up to case. *)
Definition fee_listed (w : string) (db : Store) : bool :=
  existsb (fun d => Str.ci_eq w (DeliveryFee.wilaya (doc d))) (deliveryfee db).

(** [s] is [w] up to case, possibly followed by one final newline. *)
Fixpoint ci_eq_line (w s : string) : bool :=
  match w, s with
  | EmptyString, _ => Regex.at_end s
  | String c w', String d s' => Str.ci_char c d && ci_eq_line w' s'
  | String _ _, EmptyString => false
  end.

(** The pattern of a literal string: one literal atom per character. *)
Fixpoint lits (s : string) : Regex.t :=
  match s with
  | EmptyString => []
  | String c s' => (Regex.Chr c, Regex.One) :: lits s'
  end.

Fixpoint lit_tokens (s : string) : list Regex.token :=
  match s with
  | EmptyString => []
  | String c s' => Regex.TAtom (Regex.Chr c) :: lit_tokens s'
  end.

(** ** Relations between the store before and after a handler *)

(** [preserves R h]: the store after [h] is related by [R] to the store
    before. *)
Definition preserves (R : Store -> Store -> Prop) {A} (h : Handler A) : Prop :=
  forall db, R db (after h db).

(** [db'] has the users and orders of [db], and its delivery fees with
    possibly more after them. *)
Definition grows (db db' : Store) : Prop :=
  user db' = user db /\ order db' = order db
  /\ exists more, deliveryfee db' = deliveryfee db ++ more.

(** The handlers of the user profile leave orders and fees alone. *)
Definition beside_users (db db' : Store) : Prop :=
  order db' = order db /\ deliveryfee db' = deliveryfee db.

Definition same_emails (db db' : Store) : Prop := emails db' = emails db.

Definition same_users (db db' : Store) : Prop := user db' = user db.

Definition keeps_catalogue (db db' : Store) : Prop :=
  product db' = product db /\ deliveryfee db' = deliveryfee db.

Definition keeps_valid (db db' : Store) : Prop :=
  catalogue_valid db -> catalogue_valid db'.

(** A second seeding leaves the fees, and the products, as they are. *)
Definition same_fees (db db' : Store) : Prop := deliveryfee db' = deliveryfee db.
Definition same_products (db db' : Store) : Prop := product db' = product db.



(** An order that passes the constraints of its schema: a status among
    the four, items of a quantity of at least 1. *)
Definition order_valid (o : Order.t) : bool :=
  status_allowed (Order.status o) && forallb OrderItem.valid (Order.items o).

Definition orders_valid (db : Store) : Prop :=
  Forall (fun d => order_valid (doc d) = true) (order db).

(** ** Stores and requests to run the handlers on *)

(** A stand-in for SHA-256 when a handler is run on an example; every
    property below holds whatever the digest is. *)
Definition plain_digest : Sha256 := fun pw => pw.

Definition home : Address.t :=
  {| Address.label := "Maison"; Address.full_name := "Amel B.";
     Address.phone := "0550 00 00 03"; Address.wilaya := "Alger";
     Address.commune := None; Address.street := "12 rue Didouche";
     Address.notes := None |}.

Definition lenses : OrderItem.t :=
  {| OrderItem.product_id := "000000000000000000000000";
     OrderItem.title := "Lentilles journalières FreshLook";
     OrderItem.price := Py.of_Z 2500; OrderItem.quantity := 1;
     OrderItem.image := None |}.

Definition basket (wilaya : string) (items : list OrderItem.t) : CheckoutRequest.t :=
  {| CheckoutRequest.user_id := "00000000000000000000000a";
     CheckoutRequest.items := items;
     CheckoutRequest.address := home;
     CheckoutRequest.wilaya := wilaya |}.

(** The store after [admin_seed] at time 0, and after one checkout at
    time 1 (wilaya "Alger", one box of lenses at 2500). *)
Definition seeded : Store := after (admin_seed 0) empty_store.

Definition with_one_order : Store :=
  after (@checkout Regex.engine 1 (basket "Alger" [lenses])) seeded.

(** A user with one address "Maison". *)
Definition with_one_user : Store :=
  after (add_address "000000000000000000000000" home)
    (after (@register plain_digest 2
              {| RegisterRequest.name := "Amel";
                 RegisterRequest.email := "amel@example.com";
                 RegisterRequest.password := "secret" |})
       empty_store).

Definition search_params (q : string) (limit : Z) : ProductQuery.t :=
  {| ProductQuery.q := Some q; ProductQuery.category := None;
     ProductQuery.brand := None; ProductQuery.color := None;
     ProductQuery.frame_shape := None; ProductQuery.type_ := None;
     ProductQuery.price_min := None; ProductQuery.price_max := None;
     ProductQuery.limit := limit |}.

Definition bounds_params (lo hi : Z) : ProductQuery.t :=
  {| ProductQuery.q := None; ProductQuery.category := None;
     ProductQuery.brand := None; ProductQuery.color := None;
     ProductQuery.frame_shape := None; ProductQuery.type_ := None;
     ProductQuery.price_min := Some (Py.of_Z lo);
     ProductQuery.price_max := Some (Py.of_Z hi);
     ProductQuery.limit := 50 |}.

Definition ok_body {A} (r : Response A) : option A :=
  match r with Ok a => Some a | _ => None end.

(** ** Orders a checkout builds *)

(** The order a checkout builds from the request, the subtotal, the fee
    and the total. *)
Definition order_of (payload : CheckoutRequest.t) (subtotal fee total : Py.float)
  : Order.t :=
  {| Order.user_id := CheckoutRequest.user_id payload;
     Order.items := CheckoutRequest.items payload;
     Order.address := CheckoutRequest.address payload;
     Order.wilaya := CheckoutRequest.wilaya payload;
     Order.subtotal := subtotal;
     Order.delivery_fee := fee;
     Order.total := total;
     Order.status := "en_preparation" |}.

(** The seeded store with nothing but its fees. *)
Definition fees_only : Store :=
  {| user := []; product := []; deliveryfee := deliveryfee seeded;
     order := []; doctor := []; next_id := next_id seeded |}.

(** ** Identifiers of the stored documents *)

Definition ids {T} (c : Collection T) : list ObjectId.t := map _id c.

(** Every stored document has an identifier below [n]. *)
Definition ids_below (n : ObjectId.t) (db : Store) : Prop :=
  Forall (fun i => (i < n)%N) (ids (user db))
  /\ Forall (fun i => (i < n)%N) (ids (product db))
  /\ Forall (fun i => (i < n)%N) (ids (deliveryfee db))
  /\ Forall (fun i => (i < n)%N) (ids (order db))
  /\ Forall (fun i => (i < n)%N) (ids (doctor db)).

(** The identifier the store hands out next is new. *)
Definition ids_fresh (db : Store) : Prop := ids_below (next_id db) db.

Definition keeps_fresh (db db' : Store) : Prop := ids_fresh db -> ids_fresh db'.

(** ** Doctors *)


(** ** Orders by date *)

(** Each document is at least as late as the next one. *)
Fixpoint latest_first {T} (c : list (Document T)) : Prop :=
  match c with
  | [] => True
  | d :: c' =>
      match c' with
      | [] => True
      | x :: _ => later_or_same (created_at d) (created_at x) = true
      end /\ latest_first c'
  end.

(** * Properties *)

(** ** The store operations *)

Ltac handler :=
  unfold after, response, bind, ret, raise, try_call, query, modify; simpl.

Lemma update_one_unmatched {T} (filt : Document T -> bool) update (c : Collection T) :
  Mongo.find_one filt c = None ->
  Mongo.update_one filt update c
  = (c, {| Mongo.matched_count := 0; Mongo.modified_count := 0 |}).
Proof.
  unfold Mongo.find_one.
  induction c as [|d c IH]; simpl; [reflexivity|].
  destruct (filt d); [discriminate|].
  intros Hnone. rewrite (IH Hnone). reflexivity.
Qed.

Lemma update_one_matched {T} (filt : Document T -> bool) update (c : Collection T) d :
  Mongo.find_one filt c = Some d ->
  Mongo.matched_count (snd (Mongo.update_one filt update c)) = 1%nat.
Proof.
  unfold Mongo.find_one.
  induction c as [|x c IH]; simpl; [discriminate|].
  destruct (filt x).
  - intros _. destruct (update x). reflexivity.
  - intros Hd. specialize (IH Hd).
    destruct (Mongo.update_one filt update c). exact IH.
Qed.

(** After an update by identifier that keeps identifiers, looking the
    identifier up gives the updated document, and every other identifier
    gives what it gave before. *)
Lemma update_one_by_id {T} (update : Document T -> Document T * bool)
    (c : Collection T) oid d :
  (forall x, _id (fst (update x)) = _id x) ->
  Mongo.find_one (Mongo.by_id oid) c = Some d ->
  Mongo.find_one (Mongo.by_id oid)
    (fst (Mongo.update_one (Mongo.by_id oid) update c))
  = Some (fst (update d)).
Proof.
  intros Hid. unfold Mongo.find_one.
  induction c as [|x c IH]; simpl; [discriminate|].
  destruct (Mongo.by_id oid x) eqn:Hx.
  - intros [= ->]. destruct (update d) as [d' b] eqn:Hu. simpl.
    assert (Hd' : Mongo.by_id oid d' = true).
    { unfold Mongo.by_id in *. specialize (Hid d). rewrite Hu in Hid.
      simpl in Hid. rewrite Hid. exact Hx. }
    rewrite Hd'. reflexivity.
  - intros Hd. specialize (IH Hd).
    destruct (Mongo.update_one (Mongo.by_id oid) update c). simpl in *.
    rewrite Hx. exact IH.
Qed.

Lemma update_one_other_id {T} (update : Document T -> Document T * bool)
    (c : Collection T) oid oid' :
  (forall x, _id (fst (update x)) = _id x) ->
  oid' <> oid ->
  Mongo.find_one (Mongo.by_id oid')
    (fst (Mongo.update_one (Mongo.by_id oid) update c))
  = Mongo.find_one (Mongo.by_id oid') c.
Proof.
  intros Hid Hne. unfold Mongo.find_one.
  induction c as [|x c IH]; simpl; [reflexivity|].
  destruct (Mongo.by_id oid x) eqn:Hx.
  - destruct (update x) as [x' b] eqn:Hu. simpl.
    assert (Hx' : _id x' = _id x).
    { specialize (Hid x). rewrite Hu in Hid. exact Hid. }
    unfold Mongo.by_id in *. rewrite Hx'.
    apply N.eqb_eq in Hx.
    destruct (N.eqb (_id x) oid') eqn:Hx2; [|reflexivity].
    apply N.eqb_eq in Hx2. congruence.
  - destruct (Mongo.update_one (Mongo.by_id oid) update c). simpl in *.
    rewrite IH. reflexivity.
Qed.

Lemma set_status_id now status (d : Document Order.t) :
  _id (fst (set_status now status d)) = _id d.
Proof. reflexivity. Qed.

(** ** Order status ([update_order_status]) *)

(** The four values of [allowed] are those of [OrderStatus]. *)
Lemma allowed_is_OrderStatus : allowed = Order.OrderStatus.
Proof. reflexivity. Qed.

(** What [update_order_status] answers, case by case. *)
Lemma update_order_status_response now order_id payload db :
  response (update_order_status now order_id payload) db =
  if negb (status_allowed (UpdateOrderStatus.status payload))
  then HTTPException 400 "Statut invalide"
  else match ObjectId.of_str order_id with
       | None => Uncaught "InvalidId"
       | Some oid =>
           match Mongo.find_one (Mongo.by_id oid) (order db) with
           | None => HTTPException 404 "Commande introuvable"
           | Some _ => Ok true
           end
       end.
Proof.
  unfold update_order_status, status_allowed.
  destruct (negb _); [reflexivity|].
  handler.
  destruct (ObjectId.of_str order_id) as [oid|]; [|reflexivity].
  destruct (Mongo.find_one (Mongo.by_id oid) (order db)) as [d|] eqn:Hfind.
  - pose proof (@update_one_matched _ _
                  (set_status now (UpdateOrderStatus.status payload)) _ _ Hfind) as Hm.
    destruct (Mongo.update_one _ _ (order db)) as [c res]. simpl in *.
    rewrite Hm. reflexivity.
  - rewrite (@update_one_unmatched _ _ _ _ Hfind). reflexivity.
Qed.



(** ** The example stores *)

Example seeded_fee_count : List.length (deliveryfee seeded) = 10%nat.
Proof. reflexivity. Qed.

(** Region "Alger" (fee 400) and one item at 2500: subtotal 2500, fee 400,
    total 2900. *)
Example checkout_alger :
  map (fun d => (Order.subtotal (doc d), Order.delivery_fee (doc d),
                 Order.total (doc d), Order.status (doc d)))
      (order with_one_order)
  = [(Py.of_Z 2500, Py.of_Z 400, Py.of_Z 2900, "en_preparation")].
Proof. vm_compute. reflexivity. Qed.

(** ** C3 and C4: the status update *)



(** C4: for an existing order and a status among the four allowed values
    the update succeeds whatever the order's current status is; afterwards
    the order has the requested status and [updated_at] is the time of the
    update, its other fields are as before, and every other order is
    untouched. *)
Theorem status_update_accepted now order_id oid d payload db :
  status_allowed (UpdateOrderStatus.status payload) = true ->
  ObjectId.of_str order_id = Some oid ->
  Mongo.find_one (Mongo.by_id oid) (order db) = Some d ->
  let db' := after (update_order_status now order_id payload) db in
  response (update_order_status now order_id payload) db = Ok true
  /\ Mongo.find_one (Mongo.by_id oid) (order db')
     = Some {| _id := _id d;
               doc := Order.with_status (UpdateOrderStatus.status payload) (doc d);
               created_at := created_at d;
               updated_at := Some now |}
  /\ (forall oid', oid' <> oid ->
        Mongo.find_one (Mongo.by_id oid') (order db')
        = Mongo.find_one (Mongo.by_id oid') (order db)).
Proof.
  intros Hallowed Hoid Hfind. cbv zeta. split.
  - rewrite update_order_status_response, Hallowed, Hoid, Hfind. reflexivity.
  - unfold update_order_status. fold (status_allowed (UpdateOrderStatus.status payload)).
    rewrite Hallowed. handler. rewrite Hoid.
    pose proof (@update_one_matched _ _
                  (set_status now (UpdateOrderStatus.status payload)) _ _ Hfind) as Hm.
    pose proof (@update_one_by_id _
                  (set_status now (UpdateOrderStatus.status payload)) _ _ _
                  (set_status_id now (UpdateOrderStatus.status payload)) Hfind) as Hnew.
    assert (Hothers : forall oid', oid' <> oid ->
              Mongo.find_one (Mongo.by_id oid')
                (fst (Mongo.update_one (Mongo.by_id oid)
                        (set_status now (UpdateOrderStatus.status payload))
                        (order db)))
              = Mongo.find_one (Mongo.by_id oid') (order db)).
    { intros oid' Hne. apply update_one_other_id; [apply set_status_id|exact Hne]. }
    destruct (Mongo.update_one _ _ (order db)) as [c res]. simpl in *.
    rewrite Hm. simpl. split; [exact Hnew|exact Hothers].
Qed.

(** The order of [with_one_order] goes from "en_preparation" straight to
    "livree". *)
Lemma status_update_accepted_witness :
  Mongo.find_one (Mongo.by_id 16%N) (order with_one_order)
  = Some {| _id := 16%N;
            doc := {| Order.user_id := "00000000000000000000000a";
                      Order.items := [lenses]; Order.address := home;
                      Order.wilaya := "Alger";
                      Order.subtotal := Py.of_Z 2500;
                      Order.delivery_fee := Py.of_Z 400;
                      Order.total := Py.of_Z 2900;
                      Order.status := "en_preparation" |};
            created_at := Some 1; updated_at := Some 1 |}
  /\ response (update_order_status 7 "000000000000000000000010"
                 {| UpdateOrderStatus.status := "livree" |}) with_one_order
     = Ok true
  /\ option_map (fun x => (Order.status (doc x), updated_at x))
       (Mongo.find_one (Mongo.by_id 16%N)
          (order (after (update_order_status 7 "000000000000000000000010"
                           {| UpdateOrderStatus.status := "livree" |})
                    with_one_order)))
     = Some ("livree", Some 7).
Proof.
  assert (Hfind : Mongo.find_one (Mongo.by_id 16%N) (order with_one_order)
                  = Some {| _id := 16%N;
            doc := {| Order.user_id := "00000000000000000000000a";
                      Order.items := [lenses]; Order.address := home;
                      Order.wilaya := "Alger";
                      Order.subtotal := Py.of_Z 2500;
                      Order.delivery_fee := Py.of_Z 400;
                      Order.total := Py.of_Z 2900;
                      Order.status := "en_preparation" |};
            created_at := Some 1; updated_at := Some 1 |}).
  { vm_compute. reflexivity. }
  split; [exact Hfind|].
  destruct (@status_update_accepted 7 "000000000000000000000010" 16%N _
              {| UpdateOrderStatus.status := "livree" |} with_one_order
              eq_refl eq_refl Hfind) as [Hr [Hnew _]].
  split; [exact Hr|]. rewrite Hnew. reflexivity.
Defined.

(** ** What each handler does to the collections *)

Lemma update_one_result {T} (filt : Document T -> bool) update (c : Collection T) :
  snd (Mongo.update_one filt update c)
  = match Mongo.find_one filt c with
    | Some d => {| Mongo.matched_count := 1;
                   Mongo.modified_count := if snd (update d) then 1 else 0 |}
    | None => {| Mongo.matched_count := 0; Mongo.modified_count := 0 |}
    end.
Proof.
  unfold Mongo.find_one.
  induction c as [|x c IH]; simpl; [reflexivity|].
  destruct (filt x).
  - destruct (update x). reflexivity.
  - destruct (Mongo.update_one filt update c). exact IH.
Qed.

(** An update that keeps a field of every document keeps the list of the
    values of that field. *)
Lemma update_one_map {T B} (g : Document T -> B) filt update (c : Collection T) :
  (forall x, g (fst (update x)) = g x) ->
  map g (fst (Mongo.update_one filt update c)) = map g c.
Proof.
  intros Hg.
  induction c as [|x c IH]; simpl; [reflexivity|].
  destruct (filt x).
  - destruct (update x) as [x' b] eqn:Hu. simpl.
    specialize (Hg x). rewrite Hu in Hg. simpl in Hg. rewrite Hg. reflexivity.
  - destruct (Mongo.update_one filt update c). simpl in *. rewrite IH. reflexivity.
Qed.

Lemma find_app_some {A} (f : A -> bool) l l' x :
  find f l = Some x -> find f (l ++ l') = Some x.
Proof.
  induction l as [|y l IH]; simpl; [discriminate|].
  destruct (f y); [trivial|exact IH].
Qed.

(** *** Handlers that keep a relation between the store before and after *)

Section Preserves.

Variable R : Store -> Store -> Prop.
Hypothesis R_refl : forall db, R db db.
Hypothesis R_trans : forall db1 db2 db3, R db1 db2 -> R db2 db3 -> R db1 db3.

Lemma preserves_ret {A} (a : A) : preserves R (ret a).
Proof. intros db. apply R_refl. Qed.

Lemma preserves_raise {A} c d : preserves R (@raise A c d).
Proof. intros db. apply R_refl. Qed.

Lemma preserves_try_call {A} exn (o : option A) : preserves R (try_call exn o).
Proof. intros db. apply R_refl. Qed.

Lemma preserves_query {A} (f : Store -> A) : preserves R (query f).
Proof. intros db. apply R_refl. Qed.

Lemma preserves_modify {A} (f : Store -> Store * A) :
  (forall db, R db (fst (f db))) -> preserves R (modify f).
Proof.
  intros Hf db. specialize (Hf db). unfold after, modify.
  destruct (f db). exact Hf.
Qed.

Lemma preserves_bind {A B} (m : Handler A) (k : A -> Handler B) :
  preserves R m -> (forall a, preserves R (k a)) -> preserves R (bind m k).
Proof.
  intros Hm Hk db. specialize (Hm db). unfold after, bind in *.
  destruct (m db) as [db1 [a|c d|e]]; simpl in Hm; try exact Hm.
  apply R_trans with db1; [exact Hm|apply Hk].
Qed.

Lemma preserves_validated {A} ok (h : Handler A) :
  preserves R h -> preserves R (validated ok h).
Proof. intros Hh. destruct ok; [exact Hh|apply preserves_raise]. Qed.

Lemma preserves_seed_each_in {A} (existing : A -> Store -> bool) create l n :
  (forall x, In x l -> forall db, R db (fst (create x db))) ->
  preserves R (seed_each existing create l n).
Proof.
  revert n.
  induction l as [|x l IH]; intros n Hcreate; simpl.
  - apply preserves_ret.
  - assert (Hl : forall y, In y l -> forall db, R db (fst (create y db))).
    { intros y Hy. apply Hcreate. right. exact Hy. }
    apply preserves_bind; [apply preserves_query|].
    intros [|]; [apply IH, Hl|].
    apply preserves_bind; [apply preserves_modify, Hcreate; left; reflexivity|].
    intros _. apply IH, Hl.
Qed.

Lemma preserves_seed_each {A} (existing : A -> Store -> bool) create l n :
  (forall x db, R db (fst (create x db))) ->
  preserves R (seed_each existing create l n).
Proof. intros Hcreate. apply preserves_seed_each_in. intros x _. apply Hcreate. Qed.

End Preserves.

Lemma grows_refl db : grows db db.
Proof. repeat split. exists []. symmetry. apply app_nil_r. Qed.

Lemma grows_trans db1 db2 db3 : grows db1 db2 -> grows db2 db3 -> grows db1 db3.
Proof.
  intros (Hu & Ho & m & Hf) (Hu' & Ho' & m' & Hf').
  repeat split; try congruence.
  exists (m ++ m'). rewrite Hf', Hf. symmetry. apply app_assoc.
Qed.

Ltac grows_bind :=
  apply preserves_bind; [apply grows_trans | | intros ?].

Ltac grows_leaf :=
  first [ apply preserves_ret | apply preserves_raise
        | apply preserves_try_call | apply preserves_query ];
  apply grows_refl.

Lemma admin_seed_grows now : preserves grows (admin_seed now).
Proof.
  unfold admin_seed.
  grows_bind; [|grows_bind; [|grows_bind; [|grows_leaf]]];
    (apply preserves_seed_each; [apply grows_refl | apply grows_trans |]).
  - intros [name fee] db. repeat split. simpl. eexists. reflexivity.
  - intros p db. repeat split. simpl. exists []. symmetry. apply app_nil_r.
  - intros p db. repeat split. simpl. exists []. symmetry. apply app_nil_r.
Qed.

Lemma create_product_grows now p : preserves grows (create_product now p).
Proof.
  apply preserves_modify. intros db. repeat split.
  simpl. exists []. symmetry. apply app_nil_r.
Qed.

Lemma create_doctor_grows now d : preserves grows (create_doctor now d).
Proof.
  apply preserves_modify. intros db. repeat split.
  simpl. exists []. symmetry. apply app_nil_r.
Qed.

(** *** The user collection *)

Lemma beside_users_refl db : beside_users db db.
Proof. split; reflexivity. Qed.

Lemma beside_users_trans db1 db2 db3 :
  beside_users db1 db2 -> beside_users db2 db3 -> beside_users db1 db3.
Proof. intros [? ?] [? ?]. split; congruence. Qed.

Lemma same_emails_refl db : same_emails db db.
Proof. reflexivity. Qed.

Lemma same_emails_trans db1 db2 db3 :
  same_emails db1 db2 -> same_emails db2 db3 -> same_emails db1 db3.
Proof. unfold same_emails. congruence. Qed.

Lemma update_users_beside filt update : preserves beside_users (update_users filt update).
Proof.
  apply preserves_modify. intros db.
  destruct (Mongo.update_one filt update (user db)). split; reflexivity.
Qed.

Lemma update_users_emails filt update :
  (forall x, User.email (doc (fst (update x))) = User.email (doc x)) ->
  preserves same_emails (update_users filt update).
Proof.
  intros Hemail. apply preserves_modify. intros db. unfold same_emails, emails.
  pose proof (update_one_map (fun d => User.email (doc d)) filt update (user db) Hemail)
    as Hmap.
  destruct (Mongo.update_one filt update (user db)). exact Hmap.
Qed.

Ltac users_bind R_trans :=
  apply preserves_bind; [apply R_trans | | intros ?].

Ltac users_leaf R_refl :=
  first [ apply preserves_ret | apply preserves_raise
        | apply preserves_try_call | apply preserves_query ];
  apply R_refl.

Lemma update_user_beside now user_id payload :
  preserves beside_users (update_user now user_id payload).
Proof.
  unfold update_user.
  destruct (UpdateProfile.name payload), (UpdateProfile.phone payload);
    try (users_leaf beside_users_refl);
    (users_bind beside_users_trans; [users_leaf beside_users_refl|];
     users_bind beside_users_trans;
       [apply update_users_beside|users_leaf beside_users_refl]).
Qed.

Lemma update_user_emails now user_id payload :
  preserves same_emails (update_user now user_id payload).
Proof.
  unfold update_user.
  destruct (UpdateProfile.name payload), (UpdateProfile.phone payload);
    try (users_leaf same_emails_refl);
    (users_bind same_emails_trans; [users_leaf same_emails_refl|];
     users_bind same_emails_trans;
       [apply update_users_emails; reflexivity|users_leaf same_emails_refl]).
Qed.

Lemma add_address_beside user_id addr :
  preserves beside_users (add_address user_id addr).
Proof.
  unfold add_address.
  users_bind beside_users_trans; [users_leaf beside_users_refl|].
  users_bind beside_users_trans; [apply update_users_beside|].
  destruct (Nat.eqb _ _); users_leaf beside_users_refl.
Qed.

Lemma add_address_emails user_id addr :
  preserves same_emails (add_address user_id addr).
Proof.
  unfold add_address.
  users_bind same_emails_trans; [users_leaf same_emails_refl|].
  users_bind same_emails_trans; [apply update_users_emails; reflexivity|].
  destruct (Nat.eqb _ _); users_leaf same_emails_refl.
Qed.

Lemma delete_address_beside user_id label :
  preserves beside_users (delete_address user_id label).
Proof.
  unfold delete_address.
  users_bind beside_users_trans; [users_leaf beside_users_refl|].
  users_bind beside_users_trans; [apply update_users_beside|].
  users_leaf beside_users_refl.
Qed.

Lemma delete_address_emails user_id label :
  preserves same_emails (delete_address user_id label).
Proof.
  unfold delete_address.
  users_bind same_emails_trans; [users_leaf same_emails_refl|].
  users_bind same_emails_trans; [apply update_users_emails; reflexivity|].
  users_leaf same_emails_refl.
Qed.

(** Looking a user up by email finds one exactly when the email is among
    the stored ones. *)
Lemma find_email_none e (c : Collection User.t) :
  Mongo.find_one (fun d => String.eqb (User.email (doc d)) e) c = None
  <-> ~ In e (map (fun d => User.email (doc d)) c).
Proof.
  unfold Mongo.find_one.
  induction c as [|x c IH]; simpl.
  - split; [intros _ []|reflexivity].
  - destruct (String.eqb (User.email (doc x)) e) eqn:Hx.
    + apply String.eqb_eq in Hx. split; [discriminate|].
      intros Hn. exfalso. apply Hn. left. exact Hx.
    + apply String.eqb_neq in Hx. rewrite IH. tauto.
Qed.

(** [register], case by case: a known email is refused and nothing is
    stored; a new one adds one user, with that email, after the others. *)
Lemma register_known `{Sha256} now payload db :
  In (RegisterRequest.email payload) (emails db) ->
  register now payload db = (db, HTTPException 400 "Cet email est déjà utilisé").
Proof.
  intros Hin. unfold register. handler.
  destruct (Mongo.find_one _ (user db)) eqn:Hfind; [reflexivity|].
  apply find_email_none in Hfind. contradiction.
Qed.

Lemma register_new `{Sha256} now payload db :
  ~ In (RegisterRequest.email payload) (emails db) ->
  emails (after (register now payload) db)
  = emails db ++ [RegisterRequest.email payload]
  /\ beside_users db (after (register now payload) db)
  /\ is_error (response (register now payload) db) = false.
Proof.
  intros Hnew. apply find_email_none in Hnew.
  unfold register. handler. rewrite Hnew. simpl.
  unfold emails. simpl. rewrite map_app. simpl.
  repeat split.
Qed.

Lemma register_beside `{Sha256} now payload :
  preserves beside_users (register now payload).
Proof.
  intros db.
  destruct (in_dec string_dec (RegisterRequest.email payload) (emails db)) as [Hin|Hnew].
  - unfold after. rewrite (register_known now payload db Hin). apply beside_users_refl.
  - apply (register_new now payload db Hnew).
Qed.

(** *** The order collection *)

Lemma same_users_refl db : same_users db db.
Proof. reflexivity. Qed.

Lemma same_users_trans db1 db2 db3 :
  same_users db1 db2 -> same_users db2 db3 -> same_users db1 db3.
Proof. unfold same_users. congruence. Qed.

(** [float(subtotal + delivery_fee)] is the sum of [float(subtotal)] and
    the fee, whether [subtotal] is the int 0 or a float. *)
Lemma total_is_sum s fee sum t sf :
  Py.add s (Py.Float fee) = Some sum ->
  Py.to_float sum = Some t ->
  Py.to_float s = Some sf ->
  t = Py.fadd sf fee.
Proof.
  destruct s as [n|x]; simpl.
  - destruct (Py.float_of_int n) as [x|]; [|discriminate].
    simpl. intros [= <-]. simpl. intros [= <-] [= <-]. reflexivity.
  - intros [= <-]. simpl. intros [= <-] [= <-]. reflexivity.
Qed.

(** [checkout], case by case: either it errors and the store is as before,
    or it stores, after the others, one consistent order made of the
    request's items and answers with that order's total and fee. *)
Lemma checkout_cases `{RegexEngine} now payload db :
  (exists e, checkout now payload db = (db, e) /\ is_error e = true)
  \/ exists o,
       order_ok db o
       /\ Order.items o = CheckoutRequest.items payload
       /\ Order.wilaya o = CheckoutRequest.wilaya payload
       /\ Order.status o = "en_preparation"
       /\ checkout now payload db
          = (fst (create_order now o db),
             Ok {| CheckoutResponse.order_id := ObjectId.to_str (next_id db);
                   CheckoutResponse.total := Order.total o;
                   CheckoutResponse.delivery_fee := Order.delivery_fee o |}).
Proof.
  unfold checkout, bind, try_call, query, modify, raise, ret.
  destruct (Py.comprehension _ _) as [lines|] eqn:Hlines;
    [|left; eexists; split; reflexivity].
  destruct (Py.sum lines) as [s|] eqn:Hsum; [|left; eexists; split; reflexivity].
  destruct (regex_i _) as [m|] eqn:Hm; [|left; eexists; split; reflexivity].
  destruct (Mongo.find_one _ (deliveryfee db)) as [fd|] eqn:Hfd;
    [|left; eexists; split; reflexivity].
  destruct (Py.add s (Py.Float (DeliveryFee.fee (doc fd)))) as [sum|] eqn:Hadd;
    [|left; eexists; split; reflexivity].
  destruct (Py.to_float sum) as [t|] eqn:Ht; [|left; eexists; split; reflexivity].
  destruct (Py.to_float s) as [sf|] eqn:Hsf; [|left; eexists; split; reflexivity].
  right.
  exists {| Order.user_id := CheckoutRequest.user_id payload;
            Order.items := CheckoutRequest.items payload;
            Order.address := CheckoutRequest.address payload;
            Order.wilaya := CheckoutRequest.wilaya payload;
            Order.subtotal := sf;
            Order.delivery_fee := DeliveryFee.fee (doc fd);
            Order.total := t;
            Order.status := "en_preparation" |}.
  split; [|repeat split].
  constructor;
    cbn [Order.items Order.wilaya Order.subtotal Order.delivery_fee Order.total].
  - unfold subtotal_of. rewrite Hlines, Hsum. exact Hsf.
  - unfold fee_of. rewrite Hm, Hfd. reflexivity.
  - exact (total_is_sum _ _ Hadd Ht Hsf).
Qed.

Lemma checkout_same_users `{RegexEngine} now payload :
  preserves same_users (checkout now payload).
Proof.
  intros db. unfold after.
  destruct (checkout_cases now payload db)
    as [(e & -> & _)|(o & _ & _ & _ & _ & ->)]; reflexivity.
Qed.

Lemma update_order_status_same_users now order_id payload :
  preserves same_users (update_order_status now order_id payload).
Proof.
  unfold update_order_status.
  destruct (negb _); [users_leaf same_users_refl|].
  users_bind same_users_trans; [users_leaf same_users_refl|].
  users_bind same_users_trans.
  - apply preserves_modify. intros db.
    destruct (Mongo.update_one _ _ (order db)). reflexivity.
  - destruct (Nat.eqb _ _); users_leaf same_users_refl.
Qed.


Lemma update_one_Forall {T} (P : Document T -> Prop) filt update (c : Collection T) :
  (forall x, P x -> P (fst (update x))) ->
  Forall P c -> Forall P (fst (Mongo.update_one filt update c)).
Proof.
  intros Hupd.
  induction c as [|x c IH]; simpl; intros Hall; [constructor|].
  inversion Hall as [|? ? Hx Hc]; subst.
  destruct (filt x).
  - specialize (Hupd x Hx). destruct (update x). constructor; assumption.
  - specialize (IH Hc). destruct (Mongo.update_one filt update c).
    constructor; assumption.
Qed.





(** ** C1: every stored order is consistent *)

Lemma feqb_refl_finite s m e :
  Py.feqb (S754_finite s m e) (S754_finite s m e) = true.
Proof.
  unfold Py.feqb, SFeqb, SFcompare.
  rewrite Z.compare_refl.
  assert (Hm : Pos.compare_cont Eq m m = Eq) by apply Pos.compare_refl.
  rewrite Hm. destruct s; reflexivity.
Qed.







(** ** C5: one user per email *)

Lemma serve_emails_unique `{RegexEngine} `{Sha256} now r db :
  NoDup (emails db) -> NoDup (emails (serve now r db)).
Proof.
  intros Hnd. destruct r; simpl.
  - destruct (admin_seed_grows now db) as (Hu & _). unfold emails. rewrite Hu. exact Hnd.
  - destruct (in_dec string_dec (RegisterRequest.email payload) (emails db))
      as [Hin|Hnew].
    + unfold after. rewrite (register_known now payload db Hin). exact Hnd.
    + destruct (register_new now payload db Hnew) as (-> & _).
      apply NoDup_app; [exact Hnd|repeat constructor; intros []|].
      intros e He [<-|[]]. contradiction.
  - rewrite (update_user_emails now user_id payload db). exact Hnd.
  - rewrite (add_address_emails user_id addr db). exact Hnd.
  - rewrite (delete_address_emails user_id label db). exact Hnd.
  - destruct (Product.valid p); [|exact Hnd].
    destruct (create_product_grows now p db) as (Hu & _).
    unfold emails, validated. rewrite Hu. exact Hnd.
  - destruct (create_doctor_grows now d db) as (Hu & _).
    unfold emails. rewrite Hu. exact Hnd.
  - destruct (CheckoutRequest.valid payload); [|exact Hnd].
    unfold emails, validated. rewrite (checkout_same_users now payload db).
    exact Hnd.
  - unfold emails.
    rewrite (update_order_status_same_users now order_id payload db). exact Hnd.
Qed.

Lemma run_emails_unique `{RegexEngine} `{Sha256} rs db :
  NoDup (emails db) -> NoDup (emails (run rs db)).
Proof.
  revert db. induction rs as [|[now r] rs IH]; intros db Hnd; simpl.
  - exact Hnd.
  - apply IH, serve_emails_unique, Hnd.
Qed.

(** C5: after any sequence of requests on the empty store no two users
    have the same email; and registering an email that a stored user
    already has is refused with 400 and leaves the store as it was. *)
Theorem email_unique `{RegexEngine} `{Sha256} rs :
  let db := run rs empty_store in
  NoDup (emails db)
  /\ forall now payload,
       In (RegisterRequest.email payload) (emails db) ->
       response (register now payload) db
       = HTTPException 400 "Cet email est déjà utilisé"
       /\ after (register now payload) db = db.
Proof.
  cbv zeta. split.
  - apply run_emails_unique. constructor.
  - intros now payload Hin. unfold response, after.
    rewrite (register_known now payload _ Hin). split; reflexivity.
Qed.

(** Registering the email of [with_one_user] again is refused, and the
    store still has that one user. *)
Example register_twice :
  @register plain_digest 3
     {| RegisterRequest.name := "Amel B.";
        RegisterRequest.email := "amel@example.com";
        RegisterRequest.password := "other" |} with_one_user
  = (with_one_user, HTTPException 400 "Cet email est déjà utilisé")
  /\ emails with_one_user = ["amel@example.com"].
Proof. split; vm_compute; reflexivity. Qed.

(** ** C10: removing an address never answers not-found *)

Lemma pulled_has_no_label label (l : list Address.t) :
  existsb (has_label label)
    (filter (fun a => negb (String.eqb (Address.label a) label)) l) = false.
Proof.
  induction l as [|a l IH]; simpl; [reflexivity|].
  destruct (String.eqb (Address.label a) label) eqn:Ha; simpl; [exact IH|].
  unfold has_label at 1. rewrite Ha. exact IH.
Qed.

Lemma pull_address_id label (d : Document User.t) :
  _id (fst (pull_address label d)) = _id d.
Proof. reflexivity. Qed.

(** C10: for a well-formed user identifier, [delete_address] always
    succeeds; it answers [deleted = true] when the user exists and has an
    address with the label, which is then gone, and [deleted = false] for
    an unknown user or an unknown label.  [add_address] for an unknown
    user answers 404 instead. *)
Theorem delete_address_total user_id oid label addr db :
  ObjectId.of_str user_id = Some oid ->
  let db' := after (delete_address user_id label) db in
  response (delete_address user_id label) db = Ok (has_address oid label db)
  /\ has_address oid label db' = false
  /\ (Mongo.find_one (Mongo.by_id oid) (user db) = None ->
      response (delete_address user_id label) db = Ok false
      /\ response (add_address user_id addr) db
         = HTTPException 404 "Utilisateur introuvable").
Proof.
  intros Hoid. cbv zeta.
  unfold delete_address, add_address, update_users, has_address.
  handler. rewrite Hoid.
  pose proof (update_one_result (Mongo.by_id oid) (pull_address label) (user db))
    as Hres.
  pose proof (update_one_result (Mongo.by_id oid) (push_address addr) (user db))
    as Hres'.
  destruct (Mongo.find_one (Mongo.by_id oid) (user db)) as [d|] eqn:Hfind.
  - pose proof (@update_one_by_id _ (pull_address label) _ _ _
                  (pull_address_id label) Hfind) as Hnew.
    destruct (Mongo.update_one _ (pull_address label) (user db)) as [c res].
    simpl in *. subst res. simpl.
    split; [|split; [|discriminate]].
    + fold (has_label label).
      destruct (existsb (has_label label) (User.addresses (doc d))); reflexivity.
    + rewrite Hnew. simpl. apply pulled_has_no_label.
  - rewrite (@update_one_unmatched _ _ (pull_address label) _ Hfind).
    rewrite (@update_one_unmatched _ _ (push_address addr) _ Hfind).
    simpl. rewrite Hfind. repeat split.
Qed.

Lemma delete_address_total_witness :
  ObjectId.of_str "000000000000000000000000" = Some 0%N
  /\ response (delete_address "000000000000000000000000" "Maison") with_one_user
     = Ok true
  /\ response (delete_address "000000000000000000000000" "Bureau") with_one_user
     = Ok false
  /\ ObjectId.of_str "00000000000000000000000f" = Some 15%N
  /\ response (delete_address "00000000000000000000000f" "Maison") with_one_user
     = Ok false
  /\ response (add_address "00000000000000000000000f" home) with_one_user
     = HTTPException 404 "Utilisateur introuvable".
Proof.
  split; [reflexivity|].
  split; [exact (proj1 (@delete_address_total "000000000000000000000000" 0%N
                          "Maison" home with_one_user eq_refl))|].
  split; [exact (proj1 (@delete_address_total "000000000000000000000000" 0%N
                          "Bureau" home with_one_user eq_refl))|].
  split; [reflexivity|].
  exact (proj2 (proj2 (@delete_address_total "00000000000000000000000f" 15%N
                         "Maison" home with_one_user eq_refl)) eq_refl).
Defined.

(** ** Checkout with no items *)

(** [0.0 + fee == fee] for a fee that passes [ge=0]. *)
Lemma zero_plus_fee fee :
  Py.fleb Py.fzero fee = true ->
  Py.feqb (Py.fadd Py.fzero fee) fee = true.
Proof.
  destruct fee as [s|s| |s m e]; simpl.
  - intros _. destruct s; reflexivity.
  - destruct s; [discriminate|reflexivity].
  - discriminate.
  - intros _. apply feqb_refl_finite.
Qed.

(** A request with no items passes the schema, and when its wilaya
    resolves to a stored fee that is a valid [DeliveryFee], the checkout
    stores an order with subtotal 0.0 and a total equal to the fee, and
    answers with it. *)
Lemma checkout_empty_valid_fee `{RegexEngine} now payload db m fee_doc :
  CheckoutRequest.items payload = [] ->
  regex_i ("^" ++ CheckoutRequest.wilaya payload ++ "$")%string = Some m ->
  Mongo.find_one (fun d => m (DeliveryFee.wilaya (doc d))) (deliveryfee db)
  = Some fee_doc ->
  DeliveryFee.valid (doc fee_doc) = true ->
  let fee := DeliveryFee.fee (doc fee_doc) in
  let total := Py.fadd Py.fzero fee in
  CheckoutRequest.valid payload = true
  /\ checkout now payload db
     = (fst (create_order now
               {| Order.user_id := CheckoutRequest.user_id payload;
                  Order.items := [];
                  Order.address := CheckoutRequest.address payload;
                  Order.wilaya := CheckoutRequest.wilaya payload;
                  Order.subtotal := Py.fzero;
                  Order.delivery_fee := fee;
                  Order.total := total;
                  Order.status := "en_preparation" |} db),
        Ok {| CheckoutResponse.order_id := ObjectId.to_str (next_id db);
              CheckoutResponse.total := total;
              CheckoutResponse.delivery_fee := fee |})
  /\ Py.feqb total fee = true.
Proof.
  intros Hitems Hm Hfind Hvalid. cbv zeta.
  split; [unfold CheckoutRequest.valid; rewrite Hitems; reflexivity|].
  split; [|apply zero_plus_fee; exact Hvalid].
  unfold checkout, bind, try_call, query, modify, raise, ret.
  rewrite Hitems. cbn [Py.comprehension Py.sum Py.sum_from].
  rewrite Hm, Hfind. reflexivity.
Qed.

(** ** The product listing *)

Lemma list_products_response `{RegexEngine} params db :
  list_products params db =
  (db,
   match text_condition (ProductQuery.q params) with
   | None => Uncaught "OperationFailure"
   | Some text =>
       match Mongo.limit (ProductQuery.limit params)
               (Mongo.find_all
                  (fun d => filt_fields params (doc d) && text (doc d))
                  (product db)) with
       | Some out => Ok out
       | None => Uncaught "OverflowError"
       end
   end).
Proof.
  unfold list_products, text_condition, bind, try_call, query, ret.
  destruct (ProductQuery.q params) as [q|]; [|reflexivity].
  destruct (Str.truthy q); [|reflexivity].
  destruct (regex_i q); reflexivity.
Qed.

Lemma filter_filter {A} (f g : A -> bool) (l : list A) :
  filter f (filter g l) = filter (fun x => g x && f x) l.
Proof.
  induction l as [|x l IH]; simpl; [reflexivity|].
  destruct (g x); simpl; [|exact IH].
  destruct (f x); rewrite IH; reflexivity.
Qed.

(** ** The price bounds *)

Lemma valid_price_not_nan p : Product.valid p = true -> Py.is_nan (Product.price p) = false.
Proof.
  unfold Product.valid. intros Hv. apply andb_prop in Hv. destruct Hv as [Hp _].
  destruct (Product.price p); try reflexivity. discriminate.
Qed.

Lemma gte_is_leb x bound : Py.is_nan x = false -> Mongo.gte x bound = Py.fleb bound x.
Proof.
  unfold Mongo.gte. intros ->. destruct bound; reflexivity.
Qed.

Lemma lte_is_leb x bound : Py.is_nan x = false -> Mongo.lte x bound = Py.fleb x bound.
Proof.
  unfold Mongo.lte. intros Hx. rewrite Hx.
  destruct bound; destruct x; try reflexivity; discriminate.
Qed.

Lemma price_condition_in_range lo hi x :
  Py.is_nan x = false -> price_condition lo hi x = in_range lo hi x.
Proof.
  intros Hx. unfold price_condition, in_range.
  destruct lo as [l|], hi as [h|];
    rewrite ?gte_is_leb, ?lte_is_leb by exact Hx; reflexivity.
Qed.

Lemma fleb_refl_valid x : Py.fleb Py.fzero x = true -> Py.fleb x x = true.
Proof.
  destruct x as [s|s| |s m e]; intros Hx.
  - reflexivity.
  - destruct s; [discriminate Hx|reflexivity].
  - discriminate Hx.
  - pose proof (feqb_refl_finite s m e) as Heq.
    unfold Py.feqb, SFeqb in Heq. unfold Py.fleb, SFleb.
    destruct (SFcompare _ _) as [[| |]|]; try discriminate; reflexivity.
Qed.

Lemma limit_incl {T} n (l out : list T) :
  Mongo.limit n l = Some out -> incl out l.
Proof.
  unfold Mongo.limit.
  destruct (2 ^ 63 <=? Z.abs n); [discriminate|].
  destruct (n =? 0); intros [= <-]; intros x Hx; [exact Hx|].
  rewrite <- (firstn_skipn (Z.abs_nat n) l). apply in_or_app. left. exact Hx.
Qed.

(** On a store of valid products, the listing with price bounds is the
    listing without them (and without a cap), narrowed to the products
    whose price [p] has [price_min <= p] and [p <= price_max], each
    inequality when its bound is given, and then cut to [limit]. *)
Lemma price_bounds_valid_store `{RegexEngine} params db :
  Forall (fun d => Product.valid (doc d) = true) (product db) ->
  let lo := ProductQuery.price_min params in
  let hi := ProductQuery.price_max params in
  response (list_products params) db
  = match response (list_products (unbounded params)) db with
    | Ok all =>
        match Mongo.limit (ProductQuery.limit params)
                (filter (fun d => in_range lo hi (Product.price (doc d))) all) with
        | Some out => Ok out
        | None => Uncaught "OverflowError"
        end
    | HTTPException c d => HTTPException c d
    | Uncaught e => Uncaught e
    end
  /\ (forall out d,
        response (list_products params) db = Ok out -> In d out ->
        in_range lo hi (Product.price (doc d)) = true)
  /\ (forall d, In d (product db) ->
        in_range (Some (Product.price (doc d))) None (Product.price (doc d)) = true
        /\ in_range None (Some (Product.price (doc d))) (Product.price (doc d)) = true).
Proof.
  intros Hvalid. cbv zeta.
  assert (Heq : response (list_products params) db
    = match response (list_products (unbounded params)) db with
      | Ok all =>
        match Mongo.limit (ProductQuery.limit params)
                (filter (fun d => in_range (ProductQuery.price_min params)
                                    (ProductQuery.price_max params)
                                    (Product.price (doc d))) all) with
        | Some out => Ok out
        | None => Uncaught "OverflowError"
        end
      | HTTPException c d => HTTPException c d
      | Uncaught e => Uncaught e
      end).
  { unfold response. rewrite !list_products_response.
    cbn [snd unbounded ProductQuery.q ProductQuery.limit].
    destruct (text_condition (ProductQuery.q params)) as [text|]; [|reflexivity].
    change (Mongo.limit 0 ?l) with (Some l).
    cbv iota. unfold Mongo.find_all. rewrite filter_filter.
    assert (Hf : filter (fun d => filt_fields params (doc d) && text (doc d))
                   (product db)
                 = filter (fun d =>
                     (filt_fields (unbounded params) (doc d) && text (doc d))
                     && in_range (ProductQuery.price_min params)
                          (ProductQuery.price_max params) (Product.price (doc d)))
                     (product db)).
    { apply filter_ext_in. intros d Hd.
      rewrite Forall_forall in Hvalid.
      pose proof (valid_price_not_nan _ (Hvalid d Hd)) as Hnan.
      unfold filt_fields.
      cbn [unbounded ProductQuery.category ProductQuery.brand ProductQuery.color
           ProductQuery.frame_shape ProductQuery.type_ ProductQuery.price_min
           ProductQuery.price_max].
      rewrite price_condition_in_range by exact Hnan.
      cbn [price_condition].
      rewrite andb_true_r.
      destruct (in_range _ _ _); rewrite ?andb_true_r, ?andb_false_r;
        reflexivity. }
    rewrite Hf. reflexivity. }
  split; [exact Heq|]. split.
  - intros out d Hout Hd. rewrite Heq in Hout.
    destruct (response (list_products (unbounded params)) db) as [all|c e|e];
      try discriminate.
    destruct (Mongo.limit _ _) as [out'|] eqn:Hlim; [|discriminate].
    injection Hout as <-.
    apply (limit_incl _ _ Hlim) in Hd. apply filter_In in Hd. apply Hd.
  - intros d Hd. rewrite Forall_forall in Hvalid. specialize (Hvalid d Hd).
    unfold Product.valid in Hvalid. apply andb_prop in Hvalid.
    destruct Hvalid as [Hp _]. apply fleb_refl_valid in Hp.
    unfold in_range. rewrite Hp. split; reflexivity.
Qed.

(** ** Literal patterns *)

Lemma tokens_ordinary c s :
  Regex.metachar c = false ->
  Regex.tokens (String c s)
  = option_map (cons (Regex.TAtom (Regex.Chr c))) (Regex.tokens s).
Proof.
  intros Hc. pose proof Hc as Hc'. unfold Regex.metachar in Hc'. simpl in Hc'.
  repeat (apply orb_false_elim in Hc'; destruct Hc' as [? Hc']).
  cbn [Regex.tokens].
  repeat match goal with
         | E : Ascii.eqb c ?x = false |- context [Ascii.eqb c ?x] => rewrite E
         end.
  rewrite Hc. reflexivity.
Qed.








(** ** C7: free-text search *)


(** With [q = "l.n"], which occurs in no title, description or brand, the
    listing returns the products in which the pattern matches. *)
Example listing_reads_q_as_pattern :
  filter (fun d => mentions "l.n" (doc d)) (product seeded) = []
  /\ option_map (map (fun d => Product.title (doc d)))
       (ok_body (response (@list_products Regex.engine (search_params "l.n" 50))
                   seeded))
     = Some ["Lentilles journalières FreshLook";
             "Lunettes médicales Classic Noir";
             "Lunettes de soleil Aviator"].
Proof. split; vm_compute; reflexivity. Qed.





(** ** C2 and C6: resolving the delivery fee *)

(** What [get_delivery_fee] answers, case by case. *)
Lemma get_delivery_fee_response `{RegexEngine} wilaya db :
  get_delivery_fee wilaya db =
  (db,
   match regex_i ("^" ++ wilaya ++ "$")%string with
   | None => Uncaught "OperationFailure"
   | Some m =>
       match Mongo.find_one (fun d => m (DeliveryFee.wilaya (doc d)))
               (deliveryfee db) with
       | None => HTTPException 404 "Tarif non défini pour cette wilaya"
       | Some fee => Ok (DeliveryFee.wilaya (doc fee), DeliveryFee.fee (doc fee))
       end
   end).
Proof.
  unfold get_delivery_fee, bind, try_call, query, raise, ret.
  destruct (regex_i _) as [m|]; [|reflexivity].
  destruct (Mongo.find_one _ _); reflexivity.
Qed.

(** X15: the checkout and the fee lookup resolve a wilaya with the same
    query, whatever the regex engine: a checkout that succeeds charges
    the fee that [get_delivery_fee] reports for its wilaya on the same
    store. *)
Lemma checkout_fee_is_lookup_fee `{RegexEngine} now payload db body :
  response (checkout now payload) db = Ok body ->
  exists name,
    response (get_delivery_fee (CheckoutRequest.wilaya payload)) db
    = Ok (name, CheckoutResponse.delivery_fee body).
Proof.
  unfold response. rewrite get_delivery_fee_response. cbn [snd].
  unfold checkout, bind, try_call, query, modify, raise, ret.
  destruct (Py.comprehension _ _) as [lines|]; [|discriminate].
  destruct (Py.sum lines) as [s|]; [|discriminate].
  destruct (regex_i _) as [m|]; [|discriminate].
  destruct (Mongo.find_one _ (deliveryfee db)) as [fd|]; [|discriminate].
  destruct (Py.add s _) as [sum|]; [|discriminate].
  destruct (Py.to_float sum) as [t|]; [|discriminate].
  destruct (Py.to_float s) as [sf|]; [|discriminate].
  cbn [snd create_order]. intros [= <-]. eexists. reflexivity.
Qed.

Lemma checkout_fee_is_lookup_fee_witness :
  exists name,
    response (@get_delivery_fee Regex.engine "alger") seeded
    = Ok (name, Py.of_Z 400).
Proof.
  assert (Hok : response (@checkout Regex.engine 1 (basket "alger" [lenses])) seeded
                = Ok {| CheckoutResponse.order_id := "000000000000000000000010";
                        CheckoutResponse.total := Py.of_Z 2900;
                        CheckoutResponse.delivery_fee := Py.of_Z 400 |})
    by (vm_compute; reflexivity).
  destruct (@checkout_fee_is_lookup_fee Regex.engine 1 (basket "alger" [lenses])
              seeded _ Hok) as [name Hname].
  cbn [CheckoutRequest.wilaya basket CheckoutResponse.delivery_fee] in Hname.
  exists name. exact Hname.
Defined.

(** When the store resolves the wilaya to no fee, the checkout answers 400
    and stores nothing. *)
Lemma checkout_unresolved `{RegexEngine} now payload db m :
  subtotal_of (CheckoutRequest.items payload) <> None ->
  regex_i ("^" ++ CheckoutRequest.wilaya payload ++ "$")%string = Some m ->
  Mongo.find_one (fun d => m (DeliveryFee.wilaya (doc d))) (deliveryfee db) = None ->
  checkout now payload db
  = (db, HTTPException 400
           "Impossible de calculer les frais de livraison pour cette wilaya").
Proof.
  unfold subtotal_of, checkout, bind, try_call, query, modify, raise, ret.
  intros Hsub Hm Hfind.
  destruct (Py.comprehension _ _) as [lines|]; [|contradiction].
  destruct (Py.sum lines) as [s|]; [|contradiction].
  rewrite Hm, Hfind. reflexivity.
Qed.

(** C6 at a failing input: no stored wilaya equals "o.an" up to case, yet
    the lookup answers with the fee of "Oran"; and no stored wilaya equals
    "(" either, yet the lookup does not answer 404 but lets the store's
    [OperationFailure] escape. *)
Theorem fee_lookup_reads_wilaya_as_pattern :
  fee_listed "o.an" seeded = false
  /\ response (@get_delivery_fee Regex.engine "o.an") seeded
     = Ok ("Oran", Py.of_Z 500)
  /\ fee_listed "(" seeded = false
  /\ response (@get_delivery_fee Regex.engine "(") seeded
     = Uncaught "OperationFailure".
Proof. repeat split; vm_compute; reflexivity. Qed.

(** C2 at a failing input: no stored wilaya equals ".*" up to case, yet
    the checkout succeeds, charges the fee of the first stored entry
    ("Alger", 400) and stores an order. *)
Theorem checkout_reads_wilaya_as_pattern :
  fee_listed ".*" seeded = false
  /\ order seeded = []
  /\ response (@checkout Regex.engine 1 (basket ".*" [lenses])) seeded
     = Ok {| CheckoutResponse.order_id := "000000000000000000000010";
             CheckoutResponse.total := Py.of_Z 2900;
             CheckoutResponse.delivery_fee := Py.of_Z 400 |}
  /\ map (fun d => (Order.wilaya (doc d), Order.total (doc d)))
       (order (after (@checkout Regex.engine 1 (basket ".*" [lenses])) seeded))
     = [(".*", Py.of_Z 2900)].
Proof. repeat split; vm_compute; reflexivity. Qed.

(** *** A wilaya without metacharacters *)

Lemma ci_char_newline d : Str.ci_char Str.newline d = Ascii.eqb d Str.newline.
Proof. destruct d as [[] [] [] [] [] [] [] []]; reflexivity. Qed.

Lemma ci_eq_line_spec w s :
  ci_eq_line w s
  = Str.ci_eq w s || Str.ci_eq (w ++ String Str.newline EmptyString)%string s.
Proof.
  revert s. induction w as [|c w IH]; intros s.
  - destruct s as [|d [|e s]]; try reflexivity.
    + cbn. rewrite ci_char_newline, andb_true_r. reflexivity.
    + cbn. rewrite andb_false_r. reflexivity.
  - destruct s as [|d s]; [reflexivity|].
    cbn [ci_eq_line Str.ci_eq String.append]. rewrite IH.
    destruct (Str.ci_char c d); reflexivity.
Qed.

Lemma tokens_literal_app w rest :
  Regex.literal w = true ->
  Regex.tokens (w ++ rest)%string
  = option_map (app (lit_tokens w)) (Regex.tokens rest).
Proof.
  induction w as [|c w IH]; cbn [Regex.literal String.append lit_tokens].
  - intros _. destruct (Regex.tokens rest); reflexivity.
  - intros Hw. apply andb_prop in Hw. destruct Hw as [Hc Hw].
    apply negb_true_iff in Hc.
    rewrite (@tokens_ordinary c (w ++ rest)%string Hc), (IH Hw).
    destruct (Regex.tokens rest); reflexivity.
Qed.

Lemma items_literal_eol w :
  Regex.items (lit_tokens w ++ [Regex.TAtom Regex.Eol])
  = Some (lits w ++ [(Regex.Eol, Regex.One)]).
Proof.
  induction w as [|c w IH]; [reflexivity|].
  cbn [lit_tokens lits app Regex.items].
  destruct w as [|d w]; [reflexivity|].
  cbn [lit_tokens app] in *. rewrite IH. reflexivity.
Qed.

Lemma parse_anchored w :
  Regex.literal w = true ->
  Regex.parse ("^" ++ w ++ "$")%string
  = Some ((Regex.Bol, Regex.One) :: lits w ++ [(Regex.Eol, Regex.One)]).
Proof.
  intros Hw. unfold Regex.parse.
  change ("^" ++ w ++ "$")%string with (String "^" (w ++ "$")%string).
  change (Regex.tokens (String "^" (w ++ "$")%string))
    with (option_map (cons (Regex.TAtom Regex.Bol)) (Regex.tokens (w ++ "$")%string)).
  rewrite (@tokens_literal_app w "$" Hw).
  change (Regex.tokens "$") with (Some [Regex.TAtom Regex.Eol]).
  cbn [option_map Regex.items].
  destruct w as [|c w].
  - reflexivity.
  - cbn [lit_tokens app].
    change (Regex.TAtom (Regex.Chr c) :: lit_tokens w ++ [Regex.TAtom Regex.Eol])
      with (lit_tokens (String c w) ++ [Regex.TAtom Regex.Eol]).
    rewrite items_literal_eol. reflexivity.
Qed.

Lemma match_here_anchored w bos s :
  Regex.match_here (lits w ++ [(Regex.Eol, Regex.One)]) bos s = ci_eq_line w s.
Proof.
  revert bos s. induction w as [|c w IH]; intros bos s.
  - cbn. apply andb_true_r.
  - cbn [lits app Regex.match_here ci_eq_line].
    destruct s as [|d s]; [reflexivity|].
    rewrite IH. reflexivity.
Qed.

Lemma search_later_bol re s :
  Regex.search_later ((Regex.Bol, Regex.One) :: re) s = false.
Proof. induction s as [|d s IH]; [reflexivity|]. cbn. exact IH. Qed.

(** For a wilaya without metacharacters the anchored pattern matches the
    names equal to it up to case, with or without a final newline. *)
Lemma engine_anchored w :
  Regex.literal w = true ->
  exists m, Regex.engine ("^" ++ w ++ "$")%string = Some m
            /\ forall s, m s = ci_eq_line w s.
Proof.
  intros Hw. unfold Regex.engine. rewrite (@parse_anchored w Hw).
  eexists. split; [reflexivity|].
  intros s. unfold Regex.search. rewrite search_later_bol, orb_false_r.
  cbn [Regex.match_here]. apply match_here_anchored.
Qed.

Lemma find_ext {A} (f g : A -> bool) (l : list A) :
  (forall x, f x = g x) -> find f l = find g l.
Proof.
  intros Hfg. induction l as [|x l IH]; [reflexivity|].
  simpl. rewrite Hfg, IH. reflexivity.
Qed.



(** Likewise the checkout of such a wilaya that equals no stored name
    answers 400 and stores nothing. *)
Lemma checkout_literal_unlisted now payload db :
  Regex.literal (CheckoutRequest.wilaya payload) = true ->
  subtotal_of (CheckoutRequest.items payload) <> None ->
  find (fun d => ci_eq_line (CheckoutRequest.wilaya payload)
                   (DeliveryFee.wilaya (doc d))) (deliveryfee db) = None ->
  @checkout Regex.engine now payload db
  = (db, HTTPException 400
           "Impossible de calculer les frais de livraison pour cette wilaya").
Proof.
  intros Hw Hsub Hfind.
  destruct (engine_anchored _ Hw) as (m & Hm & Hline).
  apply (@checkout_unresolved Regex.engine now payload db m Hsub Hm).
  unfold Mongo.find_one. rewrite <- Hfind. apply find_ext. intros d. apply Hline.
Qed.

(** ** Stored products and fees pass their schemas *)

Lemma keeps_catalogue_refl db : keeps_catalogue db db.
Proof. split; reflexivity. Qed.

Lemma keeps_catalogue_trans db1 db2 db3 :
  keeps_catalogue db1 db2 -> keeps_catalogue db2 db3 -> keeps_catalogue db1 db3.
Proof. intros [? ?] [? ?]. split; congruence. Qed.

Lemma keeps_valid_refl db : keeps_valid db db.
Proof. intros Hv. exact Hv. Qed.

Lemma keeps_valid_trans db1 db2 db3 :
  keeps_valid db1 db2 -> keeps_valid db2 db3 -> keeps_valid db1 db3.
Proof. unfold keeps_valid. auto. Qed.

Lemma keeps_catalogue_valid db db' : keeps_catalogue db db' -> keeps_valid db db'.
Proof. intros [Hp Hf] [Vp Vf]. split; [rewrite Hp|rewrite Hf]; assumption. Qed.

(** Splits a handler into its steps, leaving the store updates. *)
Ltac frame refl trans :=
  repeat first
    [ apply preserves_ret; apply refl
    | apply preserves_raise; apply refl
    | apply preserves_try_call; apply refl
    | apply preserves_query; apply refl
    | apply preserves_bind; [apply trans | | intros ?]
    | match goal with
      | |- preserves _ (match ?x with _ => _ end) => destruct x
      end ].

Lemma update_users_keeps_catalogue filt update :
  preserves keeps_catalogue (update_users filt update).
Proof.
  apply preserves_modify. intros db.
  destruct (Mongo.update_one filt update (user db)). split; reflexivity.
Qed.

Lemma register_keeps_catalogue `{Sha256} now payload :
  preserves keeps_catalogue (register now payload).
Proof.
  unfold register. frame keeps_catalogue_refl keeps_catalogue_trans.
  apply preserves_modify. intros db. split; reflexivity.
Qed.

Lemma update_user_keeps_catalogue now user_id payload :
  preserves keeps_catalogue (update_user now user_id payload).
Proof.
  unfold update_user. frame keeps_catalogue_refl keeps_catalogue_trans;
    apply update_users_keeps_catalogue.
Qed.

Lemma add_address_keeps_catalogue user_id addr :
  preserves keeps_catalogue (add_address user_id addr).
Proof.
  unfold add_address. frame keeps_catalogue_refl keeps_catalogue_trans;
    apply update_users_keeps_catalogue.
Qed.

Lemma delete_address_keeps_catalogue user_id label :
  preserves keeps_catalogue (delete_address user_id label).
Proof.
  unfold delete_address. frame keeps_catalogue_refl keeps_catalogue_trans;
    apply update_users_keeps_catalogue.
Qed.

Lemma checkout_keeps_catalogue `{RegexEngine} now payload :
  preserves keeps_catalogue (checkout now payload).
Proof.
  unfold checkout. frame keeps_catalogue_refl keeps_catalogue_trans.
  apply preserves_modify. intros db. split; reflexivity.
Qed.

Lemma update_order_status_keeps_catalogue now order_id payload :
  preserves keeps_catalogue (update_order_status now order_id payload).
Proof.
  unfold update_order_status. frame keeps_catalogue_refl keeps_catalogue_trans.
  apply preserves_modify. intros db.
  destruct (Mongo.update_one _ _ (order db)). split; reflexivity.
Qed.

Lemma create_doctor_keeps_catalogue now d :
  preserves keeps_catalogue (create_doctor now d).
Proof. apply preserves_modify. intros db. split; reflexivity. Qed.

Lemma create_product_keeps_valid now p :
  Product.valid p = true -> preserves keeps_valid (create_product now p).
Proof.
  intros Hp. apply preserves_modify. intros db [Vp Vf]. split; simpl.
  - apply Forall_app. split; [exact Vp|]. constructor; [exact Hp|constructor].
  - exact Vf.
Qed.

Lemma admin_seed_keeps_valid now : preserves keeps_valid (admin_seed now).
Proof.
  unfold admin_seed.
  apply preserves_bind; [apply keeps_valid_trans| |intros ?].
  - apply preserves_seed_each_in; [apply keeps_valid_refl|apply keeps_valid_trans|].
    intros [name fee] Hin db [Vp Vf]. split; simpl; [exact Vp|].
    apply Forall_app. split; [exact Vf|]. constructor; [|constructor].
    simpl in Hin.
    repeat (destruct Hin as [[= <- <-]|Hin]; [vm_compute; reflexivity|]).
    destruct Hin.
  - apply preserves_bind; [apply keeps_valid_trans| |intros ?].
    + apply preserves_seed_each_in; [apply keeps_valid_refl|apply keeps_valid_trans|].
      intros p Hin db.
      assert (Hp : Product.valid p = true).
      { simpl in Hin.
        repeat (destruct Hin as [<-|Hin]; [vm_compute; reflexivity|]).
        destruct Hin. }
      exact (@create_product_keeps_valid now p Hp db).
    + apply preserves_bind; [apply keeps_valid_trans| |intros ?].
      * apply preserves_seed_each; [apply keeps_valid_refl|apply keeps_valid_trans|].
        intros d db. apply keeps_catalogue_valid. split; reflexivity.
      * apply preserves_ret, keeps_valid_refl.
Qed.

Lemma serve_catalogue_valid `{RegexEngine} `{Sha256} now r db :
  catalogue_valid db -> catalogue_valid (serve now r db).
Proof.
  destruct r; simpl.
  - apply admin_seed_keeps_valid.
  - apply keeps_catalogue_valid, register_keeps_catalogue.
  - apply keeps_catalogue_valid, update_user_keeps_catalogue.
  - apply keeps_catalogue_valid, add_address_keeps_catalogue.
  - apply keeps_catalogue_valid, delete_address_keeps_catalogue.
  - destruct (Product.valid p) eqn:Hp; [|trivial].
    apply (create_product_keeps_valid now p Hp).
  - apply keeps_catalogue_valid, create_doctor_keeps_catalogue.
  - destruct (CheckoutRequest.valid payload); [|trivial].
    apply keeps_catalogue_valid, checkout_keeps_catalogue.
  - apply keeps_catalogue_valid, update_order_status_keeps_catalogue.
Qed.

(** In every store reached from the empty one, the products and the fees
    pass their schemas: prices and fees are numbers, not below zero. *)
Lemma run_catalogue_valid `{RegexEngine} `{Sha256} rs :
  catalogue_valid (run rs empty_store).
Proof.
  assert (Hgen : forall db, catalogue_valid db -> catalogue_valid (run rs db)).
  { induction rs as [|[now r] rs IH]; intros db Hv; simpl; [exact Hv|].
    apply IH, serve_catalogue_valid, Hv. }
  apply Hgen. split; constructor.
Qed.

(** ** C8 and C9 on the stores the service can reach *)

(** C8: in every store reached from the empty one, the listing with price
    bounds is the listing without them (and without a cap), narrowed to
    the products whose price [p] has [price_min <= p] and
    [p <= price_max], each inequality when its bound is given and none
    when neither is, and then cut to [limit]; so every product returned
    is within the bounds, and a product priced exactly at a bound passes
    that bound. *)
Theorem price_bounds_inclusive `{RegexEngine} `{Sha256} rs params :
  let db := run rs empty_store in
  let lo := ProductQuery.price_min params in
  let hi := ProductQuery.price_max params in
  response (list_products params) db
  = match response (list_products (unbounded params)) db with
    | Ok all =>
        match Mongo.limit (ProductQuery.limit params)
                (filter (fun d => in_range lo hi (Product.price (doc d))) all) with
        | Some out => Ok out
        | None => Uncaught "OverflowError"
        end
    | HTTPException c d => HTTPException c d
    | Uncaught e => Uncaught e
    end
  /\ (forall out d,
        response (list_products params) db = Ok out -> In d out ->
        in_range lo hi (Product.price (doc d)) = true)
  /\ (forall d, In d (product db) ->
        in_range (Some (Product.price (doc d))) None (Product.price (doc d)) = true
        /\ in_range None (Some (Product.price (doc d))) (Product.price (doc d)) = true).
Proof.
  cbv zeta. apply price_bounds_valid_store. apply run_catalogue_valid.
Qed.

(** [seeded] is the store after the single request of a seed at time 0. *)
Lemma seeded_reached :
  @run Regex.engine plain_digest [(0, AdminSeed)] empty_store = seeded.
Proof. vm_compute. reflexivity. Qed.

(** The bounds 1200 and 8000 on the seeded catalogue: the products priced
    exactly 1200 and 8000 are returned, the one at 9000 is not. *)
Lemma price_bounds_inclusive_witness :
  option_map (map (fun d => (Product.title (doc d), Product.price (doc d))))
    (ok_body (response (@list_products Regex.engine (bounds_params 1200 8000))
                seeded))
  = Some [("Lentilles journalières FreshLook", Py.of_Z 2500);
          ("Solution d'entretien MultiPlus 360ml", Py.of_Z 1200);
          ("Lunettes médicales Classic Noir", Py.of_Z 8000)].
Proof.
  pose proof (proj1 (@price_bounds_inclusive Regex.engine plain_digest
                       [(0, AdminSeed)] (bounds_params 1200 8000))) as Heq.
  rewrite seeded_reached in Heq. rewrite Heq.
  vm_compute. reflexivity.
Defined.

(** C9: a request with no items passes the schema, and in every store
    reached from the empty one in which its wilaya resolves to a stored
    fee, the checkout stores one more order, with no items, subtotal 0.0
    and a total equal to that fee, and answers with this total. *)
Theorem checkout_empty_items `{RegexEngine} `{Sha256} rs now payload m fee_doc :
  let db := run rs empty_store in
  CheckoutRequest.items payload = [] ->
  regex_i ("^" ++ CheckoutRequest.wilaya payload ++ "$")%string = Some m ->
  Mongo.find_one (fun d => m (DeliveryFee.wilaya (doc d))) (deliveryfee db)
  = Some fee_doc ->
  let fee := DeliveryFee.fee (doc fee_doc) in
  let total := Py.fadd Py.fzero fee in
  CheckoutRequest.valid payload = true
  /\ checkout now payload db
     = (fst (create_order now
               {| Order.user_id := CheckoutRequest.user_id payload;
                  Order.items := [];
                  Order.address := CheckoutRequest.address payload;
                  Order.wilaya := CheckoutRequest.wilaya payload;
                  Order.subtotal := Py.fzero;
                  Order.delivery_fee := fee;
                  Order.total := total;
                  Order.status := "en_preparation" |} db),
        Ok {| CheckoutResponse.order_id := ObjectId.to_str (next_id db);
              CheckoutResponse.total := total;
              CheckoutResponse.delivery_fee := fee |})
  /\ Py.feqb total fee = true.
Proof.
  cbv zeta. intros Hitems Hm Hfind.
  apply (checkout_empty_valid_fee now payload _ Hitems Hm Hfind).
  destruct (run_catalogue_valid rs) as [_ Vf].
  rewrite Forall_forall in Vf. apply Vf.
  unfold Mongo.find_one in Hfind. apply find_some in Hfind. apply Hfind.
Qed.

(** With no items and wilaya "Alger" after the seed: subtotal 0, total
    400. *)
Lemma checkout_empty_items_witness :
  map (fun d => (Order.items (doc d), Order.subtotal (doc d),
                 Order.delivery_fee (doc d), Order.total (doc d)))
      (order (after (@checkout Regex.engine 1 (basket "Alger" []))
                (@run Regex.engine plain_digest [(0, AdminSeed)] empty_store)))
  = [([], Py.fzero, Py.of_Z 400, Py.of_Z 400)]
  /\ response (@checkout Regex.engine 1 (basket "Alger" []))
       (@run Regex.engine plain_digest [(0, AdminSeed)] empty_store)
     = Ok {| CheckoutResponse.order_id := "000000000000000000000010";
             CheckoutResponse.total := Py.of_Z 400;
             CheckoutResponse.delivery_fee := Py.of_Z 400 |}.
Proof.
  assert (Hm : @regex_i Regex.engine
                 ("^" ++ CheckoutRequest.wilaya (basket "Alger" []) ++ "$")%string
               = Some (Regex.search [(Regex.Bol, Regex.One);
                                     (Regex.Chr "A", Regex.One);
                                     (Regex.Chr "l", Regex.One);
                                     (Regex.Chr "g", Regex.One);
                                     (Regex.Chr "e", Regex.One);
                                     (Regex.Chr "r", Regex.One);
                                     (Regex.Eol, Regex.One)])).
  { reflexivity. }
  assert (Hfind : Mongo.find_one
                    (fun d => Regex.search [(Regex.Bol, Regex.One);
                                            (Regex.Chr "A", Regex.One);
                                            (Regex.Chr "l", Regex.One);
                                            (Regex.Chr "g", Regex.One);
                                            (Regex.Chr "e", Regex.One);
                                            (Regex.Chr "r", Regex.One);
                                            (Regex.Eol, Regex.One)]
                                (DeliveryFee.wilaya (doc d)))
                    (deliveryfee
                       (@run Regex.engine plain_digest [(0, AdminSeed)] empty_store))
                  = Some {| _id := 0%N;
                            doc := {| DeliveryFee.wilaya := "Alger";
                                      DeliveryFee.fee := Py.of_Z 400 |};
                            created_at := Some 0; updated_at := Some 0 |}).
  { vm_compute. reflexivity. }
  destruct (@checkout_empty_items Regex.engine plain_digest [(0, AdminSeed)]
              1 (basket "Alger" []) _ _ eq_refl Hm Hfind) as (_ & Hrun & _).
  unfold after, response. rewrite Hrun. split; vm_compute; reflexivity.
Defined.

(** * Further properties: the other handlers *)

(** ** Identifiers and their strings *)

Lemma hex_digit_digit_char d :
  (d < 16)%N -> ObjectId.hex_digit (ObjectId.digit_char d) = Some d.
Proof.
  intros Hd.
  assert (Hcases : (d = 0 \/ d = 1 \/ d = 2 \/ d = 3 \/ d = 4 \/ d = 5 \/ d = 6
                    \/ d = 7 \/ d = 8 \/ d = 9 \/ d = 10 \/ d = 11 \/ d = 12
                    \/ d = 13 \/ d = 14 \/ d = 15)%N) by lia.
  repeat (destruct Hcases as [->|Hcases]; [reflexivity|]).
  subst d. reflexivity.
Qed.

Lemma length_hex_digits n v acc :
  String.length (ObjectId.hex_digits n v acc) = (n + String.length acc)%nat.
Proof.
  revert v acc. induction n as [|n IH]; intros v acc; [reflexivity|].
  cbn [ObjectId.hex_digits]. rewrite IH. cbn [String.length]. lia.
Qed.

Lemma of_hex_hex_digits n v acc rest :
  ObjectId.of_hex acc (ObjectId.hex_digits n v rest)
  = ObjectId.of_hex (acc * 16 ^ N.of_nat n + v mod 16 ^ N.of_nat n)%N rest.
Proof.
  revert v acc rest. induction n as [|n IH]; intros v acc rest.
  - cbn [ObjectId.hex_digits]. f_equal.
    change (16 ^ N.of_nat 0)%N with 1%N. rewrite N.mod_1_r. lia.
  - cbn [ObjectId.hex_digits]. rewrite IH. cbn [ObjectId.of_hex].
    rewrite hex_digit_digit_char by (apply N.mod_lt; discriminate).
    f_equal.
    rewrite Nnat.Nat2N.inj_succ, N.pow_succ_r'.
    rewrite (N.Div0.mod_mul_r v 16 (16 ^ N.of_nat n)). lia.
Qed.

(** [ObjectId(str(v))] is [v] again, for a 12-byte identifier. *)
Lemma of_str_to_str v :
  (v < 2 ^ 96)%N -> ObjectId.of_str (ObjectId.to_str v) = Some v.
Proof.
  intros Hv. unfold ObjectId.of_str, ObjectId.to_str.
  rewrite length_hex_digits. cbn [String.length Nat.add Nat.eqb].
  rewrite of_hex_hex_digits. cbn [ObjectId.of_hex]. f_equal.
  change (16 ^ N.of_nat 24)%N with (2 ^ 96)%N.
  rewrite N.mod_small by exact Hv. lia.
Qed.




(** An [ObjectId] and its string go to the same string. *)
Example oid_of_object_and_string :
  oid (IdObj 255%N) = "0000000000000000000000ff"
  /\ oid (IdStr "0000000000000000000000FF") = "0000000000000000000000ff"
  /\ oid (IdStr "not an id") = "not an id"
  /\ ObjId_validate (IdStr "not an id") = None.
Proof. repeat split; vm_compute; reflexivity. Qed.

(** ** Identifiers stay new *)

Lemma keeps_fresh_refl db : keeps_fresh db db.
Proof. intros Hf. exact Hf. Qed.

Lemma keeps_fresh_trans db1 db2 db3 :
  keeps_fresh db1 db2 -> keeps_fresh db2 db3 -> keeps_fresh db1 db3.
Proof. unfold keeps_fresh. auto. Qed.

Lemma ids_below_succ n db : ids_below n db -> ids_below (N.succ n) db.
Proof.
  unfold ids_below. intros (Hu & Hp & Hf & Ho & Hd).
  repeat split; (eapply Forall_impl; [|eassumption]); intros i Hi;
    cbv beta in *; lia.
Qed.

Lemma ids_app_fresh {T} n (c : Collection T) (x : T) now :
  Forall (fun i => (i < N.succ n)%N) (ids c) ->
  Forall (fun i => (i < N.succ n)%N) (ids (c ++ [create_document now n x])).
Proof.
  intros Hc. unfold ids. rewrite map_app. apply Forall_app. split; [exact Hc|].
  constructor; [simpl; lia|constructor].
Qed.

Lemma create_user_fresh now x db : keeps_fresh db (fst (create_user now x db)).
Proof.
  intros Hf. apply ids_below_succ in Hf. destruct Hf as (Hu & Hp & Hf & Ho & Hd).
  repeat split; simpl; try assumption. apply ids_app_fresh, Hu.
Qed.

Lemma create_product_fresh now x db :
  keeps_fresh db (fst (create_product_document now x db)).
Proof.
  intros Hf. apply ids_below_succ in Hf. destruct Hf as (Hu & Hp & Hf & Ho & Hd).
  repeat split; simpl; try assumption. apply ids_app_fresh, Hp.
Qed.

Lemma create_deliveryfee_fresh now x db :
  keeps_fresh db (fst (create_deliveryfee now x db)).
Proof.
  intros Hf. apply ids_below_succ in Hf. destruct Hf as (Hu & Hp & Hf & Ho & Hd).
  repeat split; simpl; try assumption. apply ids_app_fresh, Hf.
Qed.

Lemma create_order_fresh now x db : keeps_fresh db (fst (create_order now x db)).
Proof.
  intros Hf. apply ids_below_succ in Hf. destruct Hf as (Hu & Hp & Hf & Ho & Hd).
  repeat split; simpl; try assumption. apply ids_app_fresh, Ho.
Qed.

Lemma create_doctor_fresh now x db :
  keeps_fresh db (fst (create_doctor_document now x db)).
Proof.
  intros Hf. apply ids_below_succ in Hf. destruct Hf as (Hu & Hp & Hf & Ho & Hd).
  repeat split; simpl; try assumption. apply ids_app_fresh, Hd.
Qed.

Lemma update_users_fresh filt update :
  (forall x, _id (fst (update x)) = _id x) ->
  preserves keeps_fresh (update_users filt update).
Proof.
  intros Hid. apply preserves_modify. intros db (Hu & Hp & Hf & Ho & Hd).
  pose proof (update_one_map (@_id User.t) filt update (user db) Hid) as Hmap.
  destruct (Mongo.update_one filt update (user db)) as [c res].
  repeat split; simpl in *; try assumption.
  unfold ids. rewrite Hmap. exact Hu.
Qed.

Lemma set_profile_id now payload (d : Document User.t) :
  _id (fst (set_profile now payload d)) = _id d.
Proof. reflexivity. Qed.

Lemma push_address_id addr (d : Document User.t) :
  _id (fst (push_address addr d)) = _id d.
Proof. reflexivity. Qed.

Lemma register_fresh `{Sha256} now payload :
  preserves keeps_fresh (register now payload).
Proof.
  unfold register. frame keeps_fresh_refl keeps_fresh_trans.
  apply preserves_modify. intros db. apply create_user_fresh.
Qed.

Lemma update_user_fresh now user_id payload :
  preserves keeps_fresh (update_user now user_id payload).
Proof.
  unfold update_user. frame keeps_fresh_refl keeps_fresh_trans;
    apply update_users_fresh, set_profile_id.
Qed.

Lemma add_address_fresh user_id addr :
  preserves keeps_fresh (add_address user_id addr).
Proof.
  unfold add_address. frame keeps_fresh_refl keeps_fresh_trans;
    apply update_users_fresh, push_address_id.
Qed.

Lemma delete_address_fresh user_id label :
  preserves keeps_fresh (delete_address user_id label).
Proof.
  unfold delete_address. frame keeps_fresh_refl keeps_fresh_trans;
    apply update_users_fresh, pull_address_id.
Qed.

Lemma checkout_fresh `{RegexEngine} now payload :
  preserves keeps_fresh (checkout now payload).
Proof.
  unfold checkout. frame keeps_fresh_refl keeps_fresh_trans.
  apply preserves_modify. intros db. apply create_order_fresh.
Qed.

Lemma update_order_status_fresh now order_id payload :
  preserves keeps_fresh (update_order_status now order_id payload).
Proof.
  unfold update_order_status. frame keeps_fresh_refl keeps_fresh_trans.
  apply preserves_modify. intros db (Hu & Hp & Hf & Ho & Hd).
  pose proof (update_one_map (@_id Order.t) (Mongo.by_id a)
                (set_status now (UpdateOrderStatus.status payload)) (order db)
                (fun x => eq_refl)) as Hmap.
  destruct (Mongo.update_one _ _ (order db)) as [c res].
  repeat split; simpl in *; try assumption.
  unfold ids. rewrite Hmap. exact Ho.
Qed.

Lemma admin_seed_fresh now : preserves keeps_fresh (admin_seed now).
Proof.
  unfold admin_seed.
  apply preserves_bind; [apply keeps_fresh_trans| |intros ?].
  - apply preserves_seed_each; [apply keeps_fresh_refl|apply keeps_fresh_trans|].
    intros [name fee] db. apply create_deliveryfee_fresh.
  - apply preserves_bind; [apply keeps_fresh_trans| |intros ?].
    + apply preserves_seed_each; [apply keeps_fresh_refl|apply keeps_fresh_trans|].
      intros p db. apply create_product_fresh.
    + apply preserves_bind; [apply keeps_fresh_trans| |intros ?].
      * apply preserves_seed_each; [apply keeps_fresh_refl|apply keeps_fresh_trans|].
        intros d db. apply create_doctor_fresh.
      * apply preserves_ret, keeps_fresh_refl.
Qed.

Lemma create_product_handler_fresh now p :
  preserves keeps_fresh (create_product now p).
Proof. apply preserves_modify. intros db. apply create_product_fresh. Qed.

Lemma create_doctor_handler_fresh now d :
  preserves keeps_fresh (create_doctor now d).
Proof. apply preserves_modify. intros db. apply create_doctor_fresh. Qed.

Lemma serve_ids_fresh `{RegexEngine} `{Sha256} now r db :
  ids_fresh db -> ids_fresh (serve now r db).
Proof.
  destruct r; simpl.
  - apply admin_seed_fresh.
  - apply register_fresh.
  - apply update_user_fresh.
  - apply add_address_fresh.
  - apply delete_address_fresh.
  - apply preserves_validated;
      [apply keeps_fresh_refl|apply create_product_handler_fresh].
  - apply create_doctor_handler_fresh.
  - apply preserves_validated; [apply keeps_fresh_refl|apply checkout_fresh].
  - apply update_order_status_fresh.
Qed.

(** In every store reached from the empty one, the next identifier is
    above those of all stored documents. *)
Lemma run_ids_fresh `{RegexEngine} `{Sha256} rs : ids_fresh (run rs empty_store).
Proof.
  assert (Hgen : forall db, ids_fresh db -> ids_fresh (run rs db)).
  { induction rs as [|[now r] rs IH]; intros db Hf; simpl; [exact Hf|].
    apply IH, serve_ids_fresh, Hf. }
  apply Hgen. repeat split; constructor.
Qed.

(** A document stored at the end under a new identifier is the one that
    identifier finds. *)
Lemma find_appended {T} (c : Collection T) (d : Document T) :
  Forall (fun i => (i < _id d)%N) (ids c) ->
  Mongo.find_one (Mongo.by_id (_id d)) (c ++ [d]) = Some d.
Proof.
  unfold Mongo.find_one, ids.
  induction c as [|x c IH]; simpl; intros Hc.
  - unfold Mongo.by_id. rewrite N.eqb_refl. reflexivity.
  - inversion Hc as [|? ? Hx Hc']; subst.
    unfold Mongo.by_id at 1.
    destruct (N.eqb (_id x) (_id d)) eqn:E; [apply N.eqb_eq in E; lia|].
    apply IH, Hc'.
Qed.

(** ** Checkout: what is stored, and fetching it back *)

Lemma checkout_outcome `{RegexEngine} now payload db :
  (exists e, checkout now payload db = (db, e) /\ is_error e = true)
  \/ exists subtotal fee total,
       fee_of (CheckoutRequest.wilaya payload) db = Some fee
       /\ checkout now payload db
          = (fst (create_order now (order_of payload subtotal fee total) db),
             Ok {| CheckoutResponse.order_id := ObjectId.to_str (next_id db);
                   CheckoutResponse.total := total;
                   CheckoutResponse.delivery_fee := fee |}).
Proof.
  unfold checkout, fee_of, bind, try_call, query, modify, raise, ret.
  destruct (Py.comprehension _ _) as [lines|];
    [|left; eexists; split; reflexivity].
  destruct (Py.sum lines) as [s|]; [|left; eexists; split; reflexivity].
  destruct (regex_i _) as [m|]; [|left; eexists; split; reflexivity].
  destruct (Mongo.find_one _ (deliveryfee db)) as [fd|];
    [|left; eexists; split; reflexivity].
  destruct (Py.add s _) as [sum|]; [|left; eexists; split; reflexivity].
  destruct (Py.to_float sum) as [t|]; [|left; eexists; split; reflexivity].
  destruct (Py.to_float s) as [sf|]; [|left; eexists; split; reflexivity].
  right. exists sf, (DeliveryFee.fee (doc fd)), t. split; reflexivity.
Qed.

(** X2: a checkout either errors and leaves the whole store as it was, or
    stores exactly one document: the order collection gets, at its end,
    an order with the request's user, items, address and wilaya, status
    "en_preparation" and both dates at the time of the request, and the
    answer carries that order's identifier, total and fee; users,
    products, fees and doctors are untouched. *)
Theorem checkout_all_or_nothing `{RegexEngine} now payload db :
  let db' := after (checkout now payload) db in
  let r := response (checkout now payload) db in
  (is_error r = true -> db' = db)
  /\ (forall body, r = Ok body ->
        exists o,
          order db' = order db
                      ++ [{| _id := next_id db; doc := o;
                             created_at := Some now; updated_at := Some now |}]
          /\ Order.user_id o = CheckoutRequest.user_id payload
          /\ Order.items o = CheckoutRequest.items payload
          /\ Order.address o = CheckoutRequest.address payload
          /\ Order.wilaya o = CheckoutRequest.wilaya payload
          /\ Order.status o = "en_preparation"
          /\ Order.total o = CheckoutResponse.total body
          /\ Order.delivery_fee o = CheckoutResponse.delivery_fee body
          /\ CheckoutResponse.order_id body = ObjectId.to_str (next_id db)
          /\ user db' = user db /\ product db' = product db
          /\ deliveryfee db' = deliveryfee db /\ doctor db' = doctor db
          /\ next_id db' = N.succ (next_id db)).
Proof.
  cbv zeta. unfold after, response.
  destruct (checkout_outcome now payload db)
    as [(e & -> & He)|(sf & fee & t & _ & ->)]; cbn [fst snd].
  - split; [reflexivity|]. intros body ->. discriminate He.
  - split; [discriminate|]. intros body [= <-].
    exists (order_of payload sf fee t). repeat split.
Qed.

(** X3: the checkout looks at the fee table only: on two stores with the
    same fees (and the same next identifier) it answers the same,
    whatever users and products they hold; neither the user nor the
    products of the request need exist. *)
Theorem checkout_checks_no_reference `{RegexEngine} now payload db1 db2 :
  deliveryfee db1 = deliveryfee db2 ->
  next_id db1 = next_id db2 ->
  response (checkout now payload) db1 = response (checkout now payload) db2.
Proof.
  intros Hfee Hid. unfold response, checkout, bind, try_call, query, modify, raise, ret.
  destruct (Py.comprehension _ _) as [lines|]; [|reflexivity].
  destruct (Py.sum lines) as [s|]; [|reflexivity].
  destruct (regex_i _) as [m|]; [|reflexivity].
  rewrite Hfee.
  destruct (Mongo.find_one _ (deliveryfee db2)) as [fd|]; [|reflexivity].
  destruct (Py.add s _) as [sum|]; [|reflexivity].
  destruct (Py.to_float sum) as [t|]; [|reflexivity].
  destruct (Py.to_float s) as [sf|]; [|reflexivity].
  cbn [snd create_order]. rewrite Hid. reflexivity.
Qed.

(** The seeded store with its users and products dropped answers a
    checkout as the seeded store does. *)
Lemma checkout_checks_no_reference_witness :
  response (@checkout Regex.engine 1 (basket "oran" [lenses])) fees_only
  = response (@checkout Regex.engine 1 (basket "oran" [lenses])) seeded
  /\ is_error (response (@checkout Regex.engine 1 (basket "oran" [lenses])) seeded)
     = false.
Proof.
  assert (Hfee : deliveryfee fees_only = deliveryfee seeded)
    by (vm_compute; reflexivity).
  assert (Hid : next_id fees_only = next_id seeded) by (vm_compute; reflexivity).
  split.
  - exact (@checkout_checks_no_reference Regex.engine 1 (basket "oran" [lenses])
             fees_only seeded Hfee Hid).
  - vm_compute. reflexivity.
Defined.

(** X4: in every store reached from the empty one (with identifiers still
    of 12 bytes), the identifier a checkout answers with fetches, through
    [get_order], the order just stored: the request's items, address and
    wilaya, the answered total and fee, status "en_preparation". *)
Theorem checkout_then_get_order `{RegexEngine} `{Sha256} rs now payload body :
  let db := run rs empty_store in
  (next_id db < 2 ^ 96)%N ->
  response (checkout now payload) db = Ok body ->
  exists o,
    response (get_order (CheckoutResponse.order_id body))
      (after (checkout now payload) db)
    = Ok {| _id := next_id db; doc := o;
            created_at := Some now; updated_at := Some now |}
    /\ Order.user_id o = CheckoutRequest.user_id payload
    /\ Order.items o = CheckoutRequest.items payload
    /\ Order.address o = CheckoutRequest.address payload
    /\ Order.wilaya o = CheckoutRequest.wilaya payload
    /\ Order.status o = "en_preparation"
    /\ Order.total o = CheckoutResponse.total body
    /\ Order.delivery_fee o = CheckoutResponse.delivery_fee body.
Proof.
  cbv zeta. intros Hbound. unfold after, response.
  destruct (run_ids_fresh rs) as (_ & _ & _ & Ho & _).
  destruct (checkout_outcome now payload (run rs empty_store))
    as [(e & -> & He)|(sf & fee & t & _ & ->)]; cbn [fst snd].
  - intros ->. discriminate He.
  - intros [= <-]. exists (order_of payload sf fee t).
    split; [|repeat split].
    cbn [CheckoutResponse.order_id].
    unfold get_order, bind, try_call, query, raise, ret.
    rewrite (of_str_to_str Hbound). cbn [order].
    pose proof (find_appended (order (run rs empty_store))
                  (create_document now (next_id (run rs empty_store))
                     (order_of payload sf fee t)) Ho) as Hfind.
    cbn [_id create_document] in Hfind.
    unfold create_order at 1. cbn [fst order]. rewrite Hfind. reflexivity.
Qed.

Lemma checkout_then_get_order_witness :
  option_map (fun d => (_id d, Order.items (doc d), Order.total (doc d),
                        Order.status (doc d), created_at d))
    (ok_body
       (response (get_order "000000000000000000000010")
          (after (@checkout Regex.engine 1 (basket "Alger" [lenses]))
             (@run Regex.engine plain_digest [(0, AdminSeed)] empty_store))))
  = Some (16%N, [lenses], Py.of_Z 2900, "en_preparation", Some 1).
Proof.
  assert (Hbound : (next_id (@run Regex.engine plain_digest [(0%Z, AdminSeed)]
                               empty_store) < 2 ^ 96)%N)
    by (vm_compute; reflexivity).
  assert (Hok : response (@checkout Regex.engine 1 (basket "Alger" [lenses]))
                  (@run Regex.engine plain_digest [(0, AdminSeed)] empty_store)
                = Ok {| CheckoutResponse.order_id := "000000000000000000000010";
                        CheckoutResponse.total := Py.of_Z 2900;
                        CheckoutResponse.delivery_fee := Py.of_Z 400 |})
    by (vm_compute; reflexivity).
  destruct (@checkout_then_get_order Regex.engine plain_digest [(0, AdminSeed)]
              1 (basket "Alger" [lenses]) _ Hbound Hok)
    as (o & Hget & _ & Hitems & _ & _ & Hstatus & Htotal & _).
  cbn [CheckoutResponse.order_id] in Hget. rewrite Hget.
  cbn [ok_body option_map _id doc created_at].
  rewrite Hitems, Hstatus, Htotal. vm_compute. reflexivity.
Defined.

(** ** Registering, then logging in *)

Lemma find_email_appended e (c : Collection User.t) (d : Document User.t) :
  ~ In e (map (fun x => User.email (doc x)) c) ->
  User.email (doc d) = e ->
  Mongo.find_one (fun x => String.eqb (User.email (doc x)) e) (c ++ [d]) = Some d.
Proof.
  intros Hnew He. apply find_email_none in Hnew. unfold Mongo.find_one in *.
  induction c as [|x c IH]; simpl in *.
  - rewrite He, String.eqb_refl. reflexivity.
  - destruct (String.eqb (User.email (doc x)) e); [discriminate|].
    apply IH, Hnew.
Qed.

(** What a successful registration stores. *)
Lemma register_outcome `{Sha256} now payload db :
  (register now payload db = (db, HTTPException 400 "Cet email est déjà utilisé")
   /\ In (RegisterRequest.email payload) (emails db))
  \/ (~ In (RegisterRequest.email payload) (emails db)
      /\ register now payload db
         = (fst (create_user now
                   {| User.name := RegisterRequest.name payload;
                      User.email := RegisterRequest.email payload;
                      User.password_hash :=
                        hash_password (RegisterRequest.password payload);
                      User.phone := None;
                      User.addresses := [] |} db),
            Ok {| AuthResponse.user_id := ObjectId.to_str (next_id db);
                  AuthResponse.token :=
                    hash_password (RegisterRequest.email payload
                                   ++ RegisterRequest.password payload)%string |})).
Proof.
  destruct (in_dec string_dec (RegisterRequest.email payload) (emails db))
    as [Hin|Hnew].
  - left. split; [apply register_known, Hin|exact Hin].
  - right. split; [exact Hnew|].
    apply find_email_none in Hnew.
    unfold register, bind, query, modify, raise, ret. rewrite Hnew. reflexivity.
Qed.

(** X5: after a registration that succeeded, on any store, logging in
    with the same email and password answers with the same identifier
    and token as the registration did, the password reset finds the
    user, and a password with another digest is refused with 401. *)
Theorem register_then_login `{Sha256} now payload db body :
  response (register now payload) db = Ok body ->
  let db' := after (register now payload) db in
  response (login {| LoginRequest.email := RegisterRequest.email payload;
                     LoginRequest.password := RegisterRequest.password payload |})
    db' = Ok body
  /\ response (forgot_password (RegisterRequest.email payload)) db'
     = Ok "Lien de réinitialisation envoyé (simulation)"
  /\ (forall other,
        hash_password other <> hash_password (RegisterRequest.password payload) ->
        response (login {| LoginRequest.email := RegisterRequest.email payload;
                           LoginRequest.password := other |}) db'
        = HTTPException 401 "Identifiants invalides").
Proof.
  cbv zeta. unfold after, response.
  destruct (register_outcome now payload db) as [[-> _]|[Hnew ->]]; cbn [fst snd].
  - discriminate.
  - intros [= <-].
    pose proof (find_email_appended (user db)
                  (create_document now (next_id db)
                     {| User.name := RegisterRequest.name payload;
                        User.email := RegisterRequest.email payload;
                        User.password_hash :=
                          hash_password (RegisterRequest.password payload);
                        User.phone := None;
                        User.addresses := [] |}) Hnew eq_refl) as Hfind.
    unfold login, forgot_password, bind, query, raise, ret.
    unfold create_user. cbn [fst user LoginRequest.email LoginRequest.password].
    rewrite Hfind. cbn [doc create_document User.password_hash _id].
    rewrite String.eqb_refl. cbn [negb snd].
    split; [reflexivity|]. split; [reflexivity|].
    intros other Hother.
    destruct (String.eqb (hash_password (RegisterRequest.password payload))
                (hash_password other)) eqn:E.
    + apply String.eqb_eq in E. congruence.
    + reflexivity.
Qed.

Lemma register_then_login_witness :
  response (@login plain_digest
              {| LoginRequest.email := "amel@example.com";
                 LoginRequest.password := "secret" |})
    (after (@register plain_digest 2
              {| RegisterRequest.name := "Amel";
                 RegisterRequest.email := "amel@example.com";
                 RegisterRequest.password := "secret" |}) empty_store)
  = Ok {| AuthResponse.user_id := "000000000000000000000000";
          AuthResponse.token := "amel@example.comsecret" |}.
Proof.
  exact (proj1 (@register_then_login plain_digest 2
                  {| RegisterRequest.name := "Amel";
                     RegisterRequest.email := "amel@example.com";
                     RegisterRequest.password := "secret" |} empty_store
                  {| AuthResponse.user_id := "000000000000000000000000";
                     AuthResponse.token := "amel@example.comsecret" |} eq_refl)).
Defined.

(** X6: in every store reached from the empty one (with identifiers still
    of 12 bytes), the identifier a registration answers with fetches,
    through [get_user], the new user: the registered name and email, no
    phone, no address, both dates at the time of the registration; and
    [list_addresses] answers the empty list. *)
Theorem register_then_get_user `{RegexEngine} `{Sha256} rs now payload body :
  let db := run rs empty_store in
  (next_id db < 2 ^ 96)%N ->
  response (register now payload) db = Ok body ->
  response (get_user (AuthResponse.user_id body)) (after (register now payload) db)
  = Ok {| UserView._id := AuthResponse.user_id body;
          UserView.name := RegisterRequest.name payload;
          UserView.email := RegisterRequest.email payload;
          UserView.phone := None;
          UserView.addresses := [];
          UserView.created_at := Some now;
          UserView.updated_at := Some now |}
  /\ response (list_addresses (AuthResponse.user_id body))
       (after (register now payload) db) = Ok [].
Proof.
  cbv zeta. intros Hbound. unfold after, response.
  destruct (run_ids_fresh rs) as (Hu & _).
  destruct (register_outcome now payload (run rs empty_store))
    as [[-> _]|[Hnew ->]]; cbn [fst snd].
  - discriminate.
  - intros [= <-]. cbn [AuthResponse.user_id].
    pose proof (find_appended (user (run rs empty_store))
                  (create_document now (next_id (run rs empty_store))
                     {| User.name := RegisterRequest.name payload;
                        User.email := RegisterRequest.email payload;
                        User.password_hash :=
                          hash_password (RegisterRequest.password payload);
                        User.phone := None;
                        User.addresses := [] |}) Hu) as Hfind.
    cbn [_id create_document] in Hfind.
    unfold get_user, list_addresses, bind, try_call, query, raise, ret.
    rewrite (of_str_to_str Hbound).
    unfold create_user. cbn [fst user]. rewrite Hfind.
    split; reflexivity.
Qed.

Lemma register_then_get_user_witness :
  option_map (fun u => (UserView.name u, UserView.email u, UserView.addresses u))
    (ok_body
       (response (get_user "000000000000000000000010")
          (after (@register plain_digest 2
                    {| RegisterRequest.name := "Amel";
                       RegisterRequest.email := "amel@example.com";
                       RegisterRequest.password := "secret" |})
             (@run Regex.engine plain_digest [(0, AdminSeed)] empty_store))))
  = Some ("Amel", "amel@example.com", []).
Proof.
  assert (Hbound : (next_id (@run Regex.engine plain_digest [(0%Z, AdminSeed)]
                               empty_store) < 2 ^ 96)%N)
    by (vm_compute; reflexivity).
  assert (Hok : response (@register plain_digest 2
                    {| RegisterRequest.name := "Amel";
                       RegisterRequest.email := "amel@example.com";
                       RegisterRequest.password := "secret" |})
                  (@run Regex.engine plain_digest [(0, AdminSeed)] empty_store)
                = Ok {| AuthResponse.user_id := "000000000000000000000010";
                        AuthResponse.token := "amel@example.comsecret" |})
    by (vm_compute; reflexivity).
  destruct (@register_then_get_user Regex.engine plain_digest [(0, AdminSeed)] 2
              _ _ Hbound Hok) as [Hget _].
  cbn [AuthResponse.user_id] in Hget. rewrite Hget. reflexivity.
Defined.

(** ** Addresses *)

Lemma set_user_same db : set_user (user db) db = db.
Proof. destruct db; reflexivity. Qed.

(** X7: for an existing user, [add_address] succeeds whatever the label,
    also one the user already has, and [list_addresses] then answers the
    former addresses followed by the new one; the other users are
    untouched.  For an unknown user [list_addresses] answers 404. *)
Theorem add_then_list_addresses user_id oid d addr db :
  ObjectId.of_str user_id = Some oid ->
  Mongo.find_one (Mongo.by_id oid) (user db) = Some d ->
  let db' := after (add_address user_id addr) db in
  response (add_address user_id addr) db = Ok true
  /\ response (list_addresses user_id) db'
     = Ok (User.addresses (doc d) ++ [addr])
  /\ (forall oid', oid' <> oid ->
        Mongo.find_one (Mongo.by_id oid') (user db')
        = Mongo.find_one (Mongo.by_id oid') (user db))
  /\ (forall other oid',
        ObjectId.of_str other = Some oid' ->
        Mongo.find_one (Mongo.by_id oid') (user db) = None ->
        response (list_addresses other) db
        = HTTPException 404 "Utilisateur introuvable").
Proof.
  intros Hoid Hfind. cbv zeta.
  pose proof (update_one_result (Mongo.by_id oid) (push_address addr) (user db))
    as Hres. rewrite Hfind in Hres.
  pose proof (@update_one_by_id _ (push_address addr) _ _ _
                (push_address_id addr) Hfind) as Hnew.
  assert (Hothers : forall oid', oid' <> oid ->
            Mongo.find_one (Mongo.by_id oid')
              (fst (Mongo.update_one (Mongo.by_id oid) (push_address addr) (user db)))
            = Mongo.find_one (Mongo.by_id oid') (user db)).
  { intros oid' Hne. apply update_one_other_id; [apply push_address_id|exact Hne]. }
  unfold add_address, list_addresses, update_users, after, response,
    bind, try_call, query, modify, raise, ret.
  rewrite Hoid.
  destruct (Mongo.update_one _ (push_address addr) (user db)) as [c res].
  cbn [fst snd] in *. subst res. cbn [Mongo.matched_count Nat.eqb fst snd set_user user].
  rewrite Hnew. cbn [fst snd push_address doc User.addresses].
  repeat split; try assumption.
  intros other oid' Hother Hnone. rewrite Hother, Hnone. reflexivity.
Qed.

Lemma add_then_list_addresses_witness :
  response (list_addresses "000000000000000000000000")
    (after (add_address "000000000000000000000000" home) with_one_user)
  = Ok [home; home].
Proof.
  assert (Hfind : Mongo.find_one (Mongo.by_id 0%N) (user with_one_user)
                  = Some {| _id := 0%N;
                            doc := {| User.name := "Amel";
                                      User.email := "amel@example.com";
                                      User.password_hash := "secret";
                                      User.phone := None;
                                      User.addresses := [home] |};
                            created_at := Some 2; updated_at := Some 2 |})
    by (vm_compute; reflexivity).
  destruct (@add_then_list_addresses "000000000000000000000000" 0%N _ home
              with_one_user eq_refl Hfind) as (_ & Hlist & _).
  exact Hlist.
Defined.




(** ** Profile updates *)

(** X9: [update_user] never answers 404.  With no field to set it answers
    [updated = false] and leaves the store alone, even for a malformed
    identifier; with a field to set and an unknown user it answers
    [updated = false] and leaves the store alone; for an existing user it
    sets the given fields and [updated_at], keeps the email, the password
    digest, the addresses and the creation date, and leaves the other
    users untouched. *)
Theorem update_user_outcome now user_id payload db :
  (UpdateProfile.name payload = None -> UpdateProfile.phone payload = None ->
   update_user now user_id payload db = (db, Ok false))
  /\ (forall oid,
        ObjectId.of_str user_id = Some oid ->
        Mongo.find_one (Mongo.by_id oid) (user db) = None ->
        update_user now user_id payload db = (db, Ok false))
  /\ (forall oid d,
        (UpdateProfile.name payload <> None \/ UpdateProfile.phone payload <> None) ->
        ObjectId.of_str user_id = Some oid ->
        Mongo.find_one (Mongo.by_id oid) (user db) = Some d ->
        let db' := after (update_user now user_id payload) db in
        status_of (response (update_user now user_id payload) db) = 200
        /\ (exists d',
              Mongo.find_one (Mongo.by_id oid) (user db') = Some d'
              /\ User.name (doc d')
                 = match UpdateProfile.name payload with
                   | Some n => n
                   | None => User.name (doc d)
                   end
              /\ User.phone (doc d')
                 = match UpdateProfile.phone payload with
                   | Some p => Some p
                   | None => User.phone (doc d)
                   end
              /\ updated_at d' = Some now
              /\ User.email (doc d') = User.email (doc d)
              /\ User.password_hash (doc d') = User.password_hash (doc d)
              /\ User.addresses (doc d') = User.addresses (doc d)
              /\ created_at d' = created_at d)
        /\ (forall oid', oid' <> oid ->
              Mongo.find_one (Mongo.by_id oid') (user db')
              = Mongo.find_one (Mongo.by_id oid') (user db))).
Proof.
  split; [|split].
  - intros Hn Hp. unfold update_user. rewrite Hn, Hp. reflexivity.
  - intros oid Hoid Hnone.
    pose proof (@update_one_unmatched _ _ (set_profile now payload) _ Hnone)
      as Hsame.
    unfold update_user, update_users, bind, try_call, query, modify, raise, ret.
    destruct (UpdateProfile.name payload), (UpdateProfile.phone payload);
      try reflexivity; rewrite Hoid, Hsame, set_user_same; reflexivity.
  - intros oid d Hgiven Hoid Hfind. cbv zeta.
    pose proof (@update_one_by_id _ (set_profile now payload) _ _ _
                  (set_profile_id now payload) Hfind) as Hnew.
    assert (Hothers : forall oid', oid' <> oid ->
              Mongo.find_one (Mongo.by_id oid')
                (fst (Mongo.update_one (Mongo.by_id oid)
                        (set_profile now payload) (user db)))
              = Mongo.find_one (Mongo.by_id oid') (user db)).
    { intros oid' Hne. apply update_one_other_id;
        [apply set_profile_id|exact Hne]. }
    assert (Hrun : update_user now user_id payload db
                   = (set_user (fst (Mongo.update_one (Mongo.by_id oid)
                                       (set_profile now payload) (user db))) db,
                      Ok (Nat.eqb
                            (Mongo.modified_count
                               (snd (Mongo.update_one (Mongo.by_id oid)
                                       (set_profile now payload) (user db)))) 1))).
    { unfold update_user, update_users, bind, try_call, query, modify, raise, ret.
      destruct (UpdateProfile.name payload), (UpdateProfile.phone payload);
        try (rewrite Hoid;
             destruct (Mongo.update_one _ _ (user db)) as [c res]; reflexivity).
      destruct Hgiven as [Hg|Hg]; contradiction. }
    unfold after, response. rewrite Hrun. cbn [fst snd set_user user status_of].
    split; [reflexivity|]. split; [|exact Hothers].
    eexists. split; [exact Hnew|]. repeat split.
Qed.

(** ** Seeding twice *)

Lemma seed_each_present {A} (existing : A -> Store -> bool) create l n db :
  (forall x, In x l -> existing x db = true) ->
  seed_each existing create l n db = (db, Ok n).
Proof.
  revert n. induction l as [|a l IH]; intros n Hall; [reflexivity|].
  cbn [seed_each]. unfold bind, query at 1.
  rewrite (Hall a (or_introl eq_refl)).
  apply IH. intros x Hx. apply Hall. right. exact Hx.
Qed.

Lemma seed_each_total {A} (existing : A -> Store -> bool) create l n db :
  exists n', seed_each existing create l n db
             = (after (seed_each existing create l n) db, Ok n').
Proof.
  revert n db. induction l as [|a l IH]; intros n db.
  - exists n. reflexivity.
  - unfold after. cbn [seed_each]. unfold bind, query at 1 2.
    destruct (existing a db).
    + apply IH.
    + unfold modify at 1 2. destruct (create a db) as [db1 s]. apply IH.
Qed.

Lemma seed_each_step {A} (existing : A -> Store -> bool) create a l n db :
  after (seed_each existing create (a :: l) n) db
  = if existing a db then after (seed_each existing create l n) db
    else after (seed_each existing create l (n + 1)) (fst (create a db)).
Proof.
  unfold after. cbn [seed_each]. unfold bind, query at 1.
  destruct (existing a db).
  - reflexivity.
  - unfold modify at 1. destruct (create a db) as [db1 s]. cbn [fst].
    reflexivity.
Qed.

(** After the loop, everything it was asked to seed is there, and so is
    whatever was there before. *)
Lemma seed_each_all_present {A} (existing : A -> Store -> bool) create l :
  (forall x db, existing x (fst (create x db)) = true) ->
  (forall x y db, existing x db = true -> existing x (fst (create y db)) = true) ->
  forall n db x,
    In x l \/ existing x db = true ->
    existing x (after (seed_each existing create l n) db) = true.
Proof.
  intros Hmade Hmono.
  induction l as [|a l IH]; intros n db x Hx.
  - destruct Hx as [[]|Hx]. exact Hx.
  - rewrite seed_each_step. destruct (existing a db) eqn:Ha.
    + apply IH. destruct Hx as [[<-|Hx]|Hx]; auto.
    + apply IH. destruct Hx as [[<-|Hx]|Hx]; auto.
Qed.


Lemma same_fees_refl db : same_fees db db.
Proof. reflexivity. Qed.

Lemma same_fees_trans db1 db2 db3 :
  same_fees db1 db2 -> same_fees db2 db3 -> same_fees db1 db3.
Proof. unfold same_fees. congruence. Qed.

Lemma same_products_refl db : same_products db db.
Proof. reflexivity. Qed.

Lemma same_products_trans db1 db2 db3 :
  same_products db1 db2 -> same_products db2 db3 -> same_products db1 db3.
Proof. unfold same_products. congruence. Qed.

Lemma find_app_made {A} (f : A -> bool) l x :
  f x = true -> is_some (find f (l ++ [x])) = true.
Proof.
  intros Hx. induction l as [|y l IH]; simpl.
  - rewrite Hx. reflexivity.
  - destruct (f y); [reflexivity|exact IH].
Qed.

Lemma find_app_kept {A} (f : A -> bool) l l' :
  is_some (find f l) = true -> is_some (find f (l ++ l')) = true.
Proof.
  destruct (find f l) as [x|] eqn:Hx; [|discriminate].
  intros _. rewrite (find_app_some _ _ l' Hx). reflexivity.
Qed.

(** X10: [admin_seed] is idempotent: run again, at any time, on the store
    a first run left, whatever that run started from, it inserts nothing,
    answers three zero counts and leaves the store as it is. *)
Theorem admin_seed_twice now now' db :
  admin_seed now' (after (admin_seed now) db)
  = (after (admin_seed now) db,
     Ok {| SeedResponse.products := 0; SeedResponse.delivery_fees := 0;
           SeedResponse.doctors := 0 |}).
Proof.
  unfold admin_seed.
  match goal with
  | |- context [seed_each ?e ?c fees 0] =>
      match type of c with
      | _ => set (E1 := e)
      end
  end.
  match goal with
  | |- context [seed_each ?e ?c sample_products 0] => set (E2 := e)
  end.
  match goal with
  | |- context [seed_each ?e ?c sample_doctors 0] => set (E3 := e)
  end.
  set (C1 := fun '(name, fee) =>
               create_deliveryfee now
                 {| DeliveryFee.wilaya := name; DeliveryFee.fee := Py.of_Z fee |}).
  set (C1' := fun '(name, fee) =>
                create_deliveryfee now'
                  {| DeliveryFee.wilaya := name; DeliveryFee.fee := Py.of_Z fee |}).
  (* the three loops of the first run *)
  destruct (seed_each_total E1 C1 fees 0 db) as [n1 H1].
  set (dbA := after (seed_each E1 C1 fees 0) db) in *.
  destruct (seed_each_total E2 (create_product_document now) sample_products 0 dbA)
    as [n2 H2].
  set (dbB := after (seed_each E2 (create_product_document now) sample_products 0)
                dbA) in *.
  destruct (seed_each_total E3 (create_doctor_document now) sample_doctors 0 dbB)
    as [n3 H3].
  set (dbC := after (seed_each E3 (create_doctor_document now) sample_doctors 0)
                dbB) in *.
  assert (Hfirst : after (bind (seed_each E1 C1 fees 0)
                     (fun inserted_fees =>
                        bind (seed_each E2 (create_product_document now)
                                sample_products 0)
                          (fun inserted_products =>
                             bind (seed_each E3 (create_doctor_document now)
                                     sample_doctors 0)
                               (fun inserted_doctors =>
                                  ret {| SeedResponse.products := inserted_products;
                                         SeedResponse.delivery_fees := inserted_fees;
                                         SeedResponse.doctors := inserted_doctors |}))))
                     db = dbC).
  { unfold after at 1, bind. rewrite H1, H2, H3. reflexivity. }
  rewrite Hfirst.
  (* what is present after each loop *)
  assert (P1 : forall x, In x fees -> E1 x dbA = true).
  { intros x Hx. apply seed_each_all_present; [| |left; exact Hx].
    - intros [name fee] db0. subst E1 C1. cbn. apply find_app_made.
      cbn. apply String.eqb_refl.
    - intros [name fee] [name' fee'] db0. subst E1 C1. cbn. apply find_app_kept. }
  assert (P2 : forall p, In p sample_products -> E2 p dbB = true).
  { intros x Hx. apply seed_each_all_present; [| |left; exact Hx].
    - intros p db0. subst E2. cbn. apply find_app_made. cbn. apply String.eqb_refl.
    - intros p p' db0. subst E2. cbn. apply find_app_kept. }
  assert (P3 : forall d, In d sample_doctors -> E3 d dbC = true).
  { intros x Hx. apply seed_each_all_present; [| |left; exact Hx].
    - intros d db0. subst E3. cbn. apply find_app_made. cbn. apply String.eqb_refl.
    - intros d d' db0. subst E3. cbn. apply find_app_kept. }
  (* the later loops keep the fees and the products *)
  assert (FB : deliveryfee dbB = deliveryfee dbA).
  { exact (@preserves_seed_each same_fees same_fees_refl same_fees_trans _ E2
             (create_product_document now) sample_products 0
             (fun p db0 => eq_refl) dbA). }
  assert (FC : deliveryfee dbC = deliveryfee dbB).
  { exact (@preserves_seed_each same_fees same_fees_refl same_fees_trans _ E3
             (create_doctor_document now) sample_doctors 0
             (fun p db0 => eq_refl) dbB). }
  assert (PC : product dbC = product dbB).
  { exact (@preserves_seed_each same_products same_products_refl
             same_products_trans _ E3
             (create_doctor_document now) sample_doctors 0
             (fun p db0 => eq_refl) dbB). }
  assert (Q1 : forall x, In x fees -> E1 x dbC = true).
  { intros [name fee] Hx. specialize (P1 _ Hx). subst E1. cbn in *.
    rewrite FC, FB. exact P1. }
  assert (Q2 : forall p, In p sample_products -> E2 p dbC = true).
  { intros p Hx. specialize (P2 _ Hx). subst E2. cbn in *. rewrite PC. exact P2. }
  unfold bind.
  rewrite (seed_each_present E1 C1' fees 0 dbC Q1).
  rewrite (seed_each_present E2 (create_product_document now') sample_products 0
             dbC Q2).
  rewrite (seed_each_present E3 (create_doctor_document now') sample_doctors 0
             dbC P3).
  reflexivity.
Qed.

(** ** The orders of a user, latest first *)

Lemma later_or_same_total a b :
  later_or_same a b = false -> later_or_same b a = true.
Proof.
  destruct a as [x|], b as [y|]; simpl; try discriminate; try reflexivity.
  intros Hxy. apply Z.leb_gt in Hxy. apply Z.leb_le. lia.
Qed.

Lemma insert_by_date_perm {T} (d : Document T) c :
  Permutation (insert_by_date d c) (d :: c).
Proof.
  induction c as [|x c IH]; simpl; [apply Permutation_refl|].
  destruct (later_or_same (created_at d) (created_at x)).
  - apply Permutation_refl.
  - eapply Permutation_trans; [apply perm_skip, IH|apply perm_swap].
Qed.

Lemma sort_latest_first_perm {T} (c : list (Document T)) :
  Permutation (sort_latest_first c) c.
Proof.
  induction c as [|d c IH]; simpl; [apply Permutation_refl|].
  eapply Permutation_trans; [apply insert_by_date_perm|apply perm_skip, IH].
Qed.

Lemma insert_by_date_sorted {T} (d : Document T) c :
  latest_first c -> latest_first (insert_by_date d c).
Proof.
  induction c as [|x c IH]; simpl.
  - intros _. split; exact I.
  - intros [Hx Hc].
    destruct (later_or_same (created_at d) (created_at x)) eqn:Hdx.
    + simpl. repeat split; assumption.
    + specialize (IH Hc). apply later_or_same_total in Hdx.
      cbn [latest_first]. split; [|exact IH].
      destruct c as [|y c]; simpl.
      * exact Hdx.
      * destruct (later_or_same (created_at d) (created_at y)); assumption.
Qed.

Lemma sort_latest_first_sorted {T} (c : list (Document T)) :
  latest_first (sort_latest_first c).
Proof.
  induction c as [|d c IH]; simpl; [exact I|].
  apply insert_by_date_sorted, IH.
Qed.

(** X11: [list_orders] answers with the orders whose [user_id] is the
    given string, each exactly once, ordered by creation date, latest
    first; it never fails, whether the user exists or not, and leaves the
    store alone. *)
Theorem list_orders_latest_first user_id db :
  exists out,
    list_orders user_id db = (db, Ok out)
    /\ Permutation out
         (filter (fun d => String.eqb (Order.user_id (doc d)) user_id) (order db))
    /\ latest_first out.
Proof.
  eexists. split; [reflexivity|]. split.
  - apply sort_latest_first_perm.
  - apply sort_latest_first_sorted.
Qed.

(** Two checkouts of the same user, at times 1 and 5: the later one is
    listed first. *)
Example list_orders_two :
  option_map (map (fun d => (created_at d, Order.wilaya (doc d))))
    (ok_body
       (response (list_orders "00000000000000000000000a")
          (after (@checkout Regex.engine 5 (basket "Oran" [lenses]))
             with_one_order)))
  = Some [(Some 5, "Oran"); (Some 1, "Alger")].
Proof. vm_compute. reflexivity. Qed.

(** ** Doctors *)





(** ** Creating a product or a doctor, then fetching it *)



(** ** Stored orders pass their schema *)

Lemma checkout_orders_valid `{RegexEngine} now payload db :
  CheckoutRequest.valid payload = true ->
  orders_valid db -> orders_valid (after (checkout now payload) db).
Proof.
  intros Hvalid Hok. unfold after.
  destruct (checkout_outcome now payload db)
    as [(e & -> & _)|(sf & fee & t & _ & ->)]; [exact Hok|].
  unfold orders_valid in *. cbn [fst create_order order].
  apply Forall_app. split; [exact Hok|].
  constructor; [|constructor].
  unfold order_valid. cbn [doc create_document order_of Order.status Order.items].
  exact Hvalid.
Qed.

Lemma update_order_status_orders_valid now order_id payload db :
  orders_valid db -> orders_valid (after (update_order_status now order_id payload) db).
Proof.
  intros Hok. unfold update_order_status.
  destruct (existsb (String.eqb (UpdateOrderStatus.status payload)) allowed)
    eqn:Hallowed; cbn [negb]; [|exact Hok].
  unfold after, bind, try_call, query, modify, raise, ret.
  destruct (ObjectId.of_str order_id) as [oid|]; [|exact Hok].
  pose proof (@update_one_Forall _ (fun d => order_valid (doc d) = true)
                (Mongo.by_id oid)
                (set_status now (UpdateOrderStatus.status payload)) (order db))
    as Hall.
  destruct (Mongo.update_one _ _ (order db)) as [c res]. cbn [fst snd] in *.
  assert (Hc : Forall (fun d => order_valid (doc d) = true) c).
  { apply Hall; [|exact Hok]. intros x Hx.
    unfold order_valid in *. apply andb_prop in Hx. destruct Hx as [_ Hitems].
    cbn [set_status fst doc Order.with_status Order.status Order.items].
    fold (status_allowed (UpdateOrderStatus.status payload)) in Hallowed.
    rewrite Hallowed, Hitems. reflexivity. }
  destruct (Nat.eqb _ _); exact Hc.
Qed.

Lemma serve_orders_valid `{RegexEngine} `{Sha256} now r db :
  orders_valid db -> orders_valid (serve now r db).
Proof.
  unfold orders_valid. destruct r; unfold serve; intros Hok.
  - destruct (admin_seed_grows now db) as (_ & Ho & _). rewrite Ho. exact Hok.
  - destruct (register_beside now payload db) as [Ho _]. rewrite Ho. exact Hok.
  - destruct (update_user_beside now user_id payload db) as [Ho _].
    rewrite Ho. exact Hok.
  - destruct (add_address_beside user_id addr db) as [Ho _]. rewrite Ho. exact Hok.
  - destruct (delete_address_beside user_id label db) as [Ho _].
    rewrite Ho. exact Hok.
  - unfold validated. destruct (Product.valid p); [|exact Hok].
    destruct (create_product_grows now p db) as (_ & Ho & _). rewrite Ho. exact Hok.
  - destruct (create_doctor_grows now d db) as (_ & Ho & _). rewrite Ho. exact Hok.
  - unfold validated. destruct (CheckoutRequest.valid payload) eqn:Hv; [|exact Hok].
    apply (@checkout_orders_valid _ now payload db Hv Hok).
  - apply update_order_status_orders_valid, Hok.
Qed.

(** X14: in every store reached from the empty one, every stored order
    has one of the four statuses of [OrderStatus] and only items with a
    quantity of at least 1, every stored product has a price that is a
    number not below zero and one of the four categories, and every
    stored fee is a number not below zero. *)
Theorem stored_documents_valid `{RegexEngine} `{Sha256} rs :
  let db := run rs empty_store in
  Forall (fun d =>
            In (Order.status (doc d)) Order.OrderStatus
            /\ Forall (fun it => 1 <= OrderItem.quantity it) (Order.items (doc d)))
         (order db)
  /\ Forall (fun d =>
               Py.fleb Py.fzero (Product.price (doc d)) = true
               /\ In (Product.category (doc d)) Product.ProductCategory)
            (product db)
  /\ Forall (fun d => Py.fleb Py.fzero (DeliveryFee.fee (doc d)) = true)
            (deliveryfee db).
Proof.
  cbv zeta.
  assert (Hgen : forall db, orders_valid db -> orders_valid (run rs db)).
  { induction rs as [|[now r] rs IH]; intros db Hv; simpl; [exact Hv|].
    apply IH, serve_orders_valid, Hv. }
  specialize (Hgen empty_store (Forall_nil _)).
  destruct (run_catalogue_valid rs) as [Vp Vf].
  split; [|split].
  - eapply Forall_impl; [|exact Hgen]. intros d Hd.
    unfold order_valid in Hd. apply andb_prop in Hd. destruct Hd as [Hs Hi].
    split.
    + unfold status_allowed in Hs. apply existsb_exists in Hs.
      destruct Hs as (s & Hin & Heq). apply String.eqb_eq in Heq. subst s.
      exact Hin.
    + apply Forall_forall. intros it Hit.
      rewrite forallb_forall in Hi. specialize (Hi it Hit).
      unfold OrderItem.valid in Hi. apply Z.leb_le. exact Hi.
  - eapply Forall_impl; [|exact Vp]. intros d Hd.
    unfold Product.valid in Hd. apply andb_prop in Hd. destruct Hd as [Hp Hc].
    split; [exact Hp|].
    apply existsb_exists in Hc. destruct Hc as (s & Hin & Heq).
    apply String.eqb_eq in Heq. subst s. exact Hin.
  - exact Vf.
Qed.

(** ** Logging in *)

Lemma find_email_unique (c : Collection User.t) (d : Document User.t) :
  NoDup (map (fun x => User.email (doc x)) c) -> In d c ->
  Mongo.find_one
    (fun x => String.eqb (User.email (doc x)) (User.email (doc d))) c
  = Some d.
Proof.
  unfold Mongo.find_one.
  induction c as [|x c IH]; intros Hnd Hin; [destruct Hin|].
  inversion Hnd as [|? ? Hx Hc]; subst. simpl.
  destruct Hin as [->|Hin].
  - rewrite String.eqb_refl. reflexivity.
  - destruct (String.eqb (User.email (doc x)) (User.email (doc d))) eqn:E.
    + apply String.eqb_eq in E. exfalso. apply Hx. rewrite E.
      apply (in_map (fun x => User.email (doc x))). exact Hin.
    + apply IH; assumption.
Qed.

(** X17: in every store reached from the empty one, a login with the
    email of a stored user succeeds exactly when the digest of the
    password is the digest stored for that user, and then answers with
    that user's identifier; a wrong password and an unknown email get
    the same 401 answer; the store is left as it is. *)
Theorem login_by_stored_credentials `{RegexEngine} `{Sha256} rs payload :
  let db := run rs empty_store in
  (forall d, In d (user db) ->
     User.email (doc d) = LoginRequest.email payload ->
     login payload db
     = (db,
        if String.eqb (User.password_hash (doc d))
             (hash_password (LoginRequest.password payload))
        then Ok {| AuthResponse.user_id := ObjectId.to_str (_id d);
                   AuthResponse.token :=
                     hash_password (LoginRequest.email payload
                                    ++ LoginRequest.password payload)%string |}
        else HTTPException 401 "Identifiants invalides"))
  /\ (~ In (LoginRequest.email payload) (emails db) ->
      login payload db = (db, HTTPException 401 "Identifiants invalides")).
Proof.
  cbv zeta. split.
  - intros d Hin Hemail.
    assert (Hnd : NoDup (emails (run rs empty_store)))
      by (apply run_emails_unique; constructor).
    pose proof (@find_email_unique _ d Hnd Hin) as Hfind. rewrite Hemail in Hfind.
    unfold login, bind, query, raise, ret. rewrite Hfind.
    destruct (String.eqb _ _); reflexivity.
  - intros Hnew. apply find_email_none in Hnew.
    unfold login, bind, query, raise, ret. rewrite Hnew. reflexivity.
Qed.

(** ** Malformed identifiers *)




(** The identifier "xyz", and one of 23 digits, on the seeded store. *)
Example malformed_ids :
  status_of (response (get_product "xyz") seeded) = 500
  /\ status_of (response (get_doctor "00000000000000000000000") seeded) = 500
  /\ status_of (response (get_product "00000000000000000000000A") seeded) = 200
  /\ status_of (response (get_product "0000000000000000000000ff") seeded) = 404.
Proof. repeat split; vm_compute; reflexivity. Qed.

(** ** The seeded fees are served *)





(** ** A checkout, then the orders of its user *)

Lemma filter_app_one {A} (f : A -> bool) l x :
  filter f (l ++ [x]) = filter f l ++ (if f x then [x] else []).
Proof. rewrite filter_app. reflexivity. Qed.

(** X20: after a checkout that succeeded, [list_orders] for the user
    named in the request answers with the orders it answered before and
    the new one (the answered identifier and total, created at the time
    of the request), and for every other user it answers as before. *)
Theorem checkout_then_list_orders `{RegexEngine} now payload db body :
  response (checkout now payload) db = Ok body ->
  let db' := after (checkout now payload) db in
  (exists o out out',
     response (list_orders (CheckoutRequest.user_id payload)) db = Ok out
     /\ response (list_orders (CheckoutRequest.user_id payload)) db' = Ok out'
     /\ Permutation out' (o :: out)
     /\ ObjectId.to_str (_id o) = CheckoutResponse.order_id body
     /\ Order.total (doc o) = CheckoutResponse.total body
     /\ Order.items (doc o) = CheckoutRequest.items payload
     /\ created_at o = Some now)
  /\ (forall other, other <> CheckoutRequest.user_id payload ->
        response (list_orders other) db' = response (list_orders other) db).
Proof.
  intros Hok. cbv zeta.
  destruct (checkout_outcome now payload db)
    as [(e & He & Herr)|(sf & fee & t & _ & Hrun)].
  { unfold response in Hok. rewrite He in Hok. cbn [snd] in Hok.
    subst e. discriminate Herr. }
  unfold response in Hok. rewrite Hrun in Hok. cbn [snd] in Hok.
  injection Hok as <-.
  unfold after. rewrite Hrun. cbn [fst create_order].
  set (new := create_document now (next_id db) (order_of payload sf fee t)).
  unfold response, list_orders, query. cbn [snd order]. unfold Mongo.find_all.
  split.
  - exists new.
    exists (sort_latest_first
              (filter (fun d => String.eqb (Order.user_id (doc d))
                                  (CheckoutRequest.user_id payload))
                 (order db))).
    exists (sort_latest_first
              (filter (fun d => String.eqb (Order.user_id (doc d))
                                  (CheckoutRequest.user_id payload))
                 (order db ++ [new]))).
    split; [reflexivity|]. split; [reflexivity|].
    split; [|split; [reflexivity|split; [reflexivity|split; reflexivity]]].
    rewrite filter_app_one.
    replace (String.eqb (Order.user_id (doc new)) (CheckoutRequest.user_id payload))
      with true by (symmetry; apply String.eqb_refl).
    eapply Permutation_trans; [apply sort_latest_first_perm|].
    eapply Permutation_trans; [apply Permutation_app_comm|].
    apply perm_skip. apply Permutation_sym, sort_latest_first_perm.
  - intros other Hother. rewrite filter_app_one.
    replace (String.eqb (Order.user_id (doc new)) other) with false.
    + rewrite app_nil_r. reflexivity.
    + symmetry. apply String.eqb_neq. intros E. apply Hother. symmetry. exact E.
Qed.

Lemma checkout_then_list_orders_witness :
  exists o out',
    response (list_orders "00000000000000000000000a")
      (after (@checkout Regex.engine 1 (basket "Alger" [lenses])) seeded) = Ok out'
    /\ In o out'
    /\ Order.total (doc o) = Py.of_Z 2900.
Proof.
  assert (Hok : response (@checkout Regex.engine 1 (basket "Alger" [lenses])) seeded
                = Ok {| CheckoutResponse.order_id := "000000000000000000000010";
                        CheckoutResponse.total := Py.of_Z 2900;
                        CheckoutResponse.delivery_fee := Py.of_Z 400 |})
    by (vm_compute; reflexivity).
  destruct (@checkout_then_list_orders Regex.engine 1 (basket "Alger" [lenses])
              seeded _ Hok)
    as [(o & out & out' & _ & Hget & Hperm & _ & Htotal & _) _].
  cbn [CheckoutRequest.user_id basket CheckoutResponse.total] in Hget, Htotal.
  exists o, out'. split; [exact Hget|]. split; [|exact Htotal].
  apply (Permutation_in o (Permutation_sym Hperm)). left. reflexivity.
Defined.
